(** * Smart-classroom backend (app.py): a shallow embedding and its properties

    The Flask views of [app.py] are embedded as functions from the request
    payload and the database to a reply and the next database.  Python values
    are dynamically typed, so request fields are values of [pyval]; a Python
    exception that no [except] clause of the view catches is the outcome
    [Unhandled] (Flask answers 500 and the view has written nothing). *)

From Stdlib Require Import ZArith List String Ascii Bool Lia.
From Stdlib Require Import Floats.SpecFloat.
Import ListNotations.
Open Scope string_scope.
Open Scope list_scope.
Open Scope Z_scope.
Set Warnings "-register-all".

(** ** Python values *)

(** The values [request.get_json()] can return, and that pymongo stores and
    hands back unchanged.  A [str] is held as its UTF-8 encoding, a [float] as
    an IEEE-754 binary64 datum, a [dict] as its items in insertion order
    (keys are unique, as [json.loads] leaves them). *)
Inductive pyval : Type :=
| VNone
| VBool (b : bool)
| VInt (z : Z)
| VFloat (f : spec_float)
| VStr (s : string)
| VList (l : list pyval)
| VDict (d : list (string * pyval)).

Definition bytes := list Byte.byte.

Module Float64.
Definition prec : Z := 53.
Definition emax : Z := 1024.
Definition of_Z (z : Z) : spec_float := binary_normalize prec emax z 0 false.
Definition div : spec_float -> spec_float -> spec_float := SFdiv prec emax.
Definition mul : spec_float -> spec_float -> spec_float := SFmul prec emax.

(** [x == z] for a float and an integer: Python compares the exact values. *)
Definition eqb_Z (x : spec_float) (z : Z) : bool :=
  match x with
  | S754_zero _ => z =? 0
  | S754_finite s m e =>
      let v := if s then Z.neg m else Z.pos m in
      if 0 <=? e then Z.shiftl v e =? z else v =? Z.shiftl z (- e)
  | _ => false
  end.

(** [x == y] on floats: IEEE equality, so [nan] differs from itself. *)
Definition eqb (x y : spec_float) : bool := SFeqb x y.

(** [int(x)]: truncation toward zero; [None] stands for the [nan] and
    infinite arguments, which [int] refuses. *)
Definition trunc (x : spec_float) : option Z :=
  match x with
  | S754_zero _ => Some 0
  | S754_finite s m e =>
      let q := if 0 <=? e then Z.shiftl (Z.pos m) e
               else Z.shiftr (Z.pos m) (- e) in
      Some (if s then - q else q)
  | _ => None
  end.

(** [round(x, 2)] as CPython computes it: the exact value of [x] is rounded
    to the nearest multiple of 1/100, ties to even, and the nearest double
    to that decimal is returned.  A double whose exponent is not negative is
    an integer and is returned as it is, and so are zeros, infinities and
    [nan]. *)
Definition round_half_even (n d : Z) : Z :=
  let q := n / d in
  let r := n mod d in
  match 2 * r ?= d with
  | Lt => q
  | Gt => q + 1
  | Eq => if Z.even q then q else q + 1
  end.

Definition round2 (x : spec_float) : spec_float :=
  match x with
  | S754_finite s m e =>
      if 0 <=? e then x
      else
        let k := round_half_even (Z.pos m * 100) (Z.shiftl 1 (- e)) in
        match k with
        | Z.pos p => SFdiv prec emax (S754_finite s p 0) (S754_finite false 100 0)
        | _ => S754_zero s
        end
  | _ => x
  end.

(** The same datum, field by field. *)
Definition same (x y : spec_float) : bool :=
  match x, y with
  | S754_zero s, S754_zero s' => Bool.eqb s s'
  | S754_infinity s, S754_infinity s' => Bool.eqb s s'
  | S754_nan, S754_nan => true
  | S754_finite s m e, S754_finite s' m' e' =>
      Bool.eqb s s' && Pos.eqb m m' && (e =? e')
  | _, _ => false
  end.
End Float64.

(** [bool(v)], the test behind [if v] and [not v]. *)
Definition truthy (v : pyval) : bool :=
  match v with
  | VNone => false
  | VBool b => b
  | VInt z => negb (z =? 0)
  | VFloat (S754_zero _) => false
  | VFloat _ => true
  | VStr s => negb (String.eqb s "")
  | VList l => match l with [] => false | _ => true end
  | VDict d => match d with [] => false | _ => true end
  end.

Fixpoint assoc {A : Type} (k : string) (d : list (string * A)) : option A :=
  match d with
  | [] => None
  | (k', v) :: d' => if String.eqb k k' then Some v else assoc k d'
  end.

(** [a == b] on the values above.  Numbers compare by value across [bool],
    [int] and [float]; lists compare element by element; dicts compare as
    maps, whatever the order of their items. *)
Definition num_of_bool (b : bool) : Z := if b then 1 else 0.

Fixpoint py_eq (a b : pyval) {struct a} : bool :=
  match a, b with
  | VNone, VNone => true
  | VBool x, VBool y => Bool.eqb x y
  | VBool x, VInt y => num_of_bool x =? y
  | VBool x, VFloat y => Float64.eqb_Z y (num_of_bool x)
  | VInt x, VBool y => x =? num_of_bool y
  | VInt x, VInt y => x =? y
  | VInt x, VFloat y => Float64.eqb_Z y x
  | VFloat x, VBool y => Float64.eqb_Z x (num_of_bool y)
  | VFloat x, VInt y => Float64.eqb_Z x y
  | VFloat x, VFloat y => Float64.eqb x y
  | VStr x, VStr y => String.eqb x y
  | VList x, VList y =>
      (fix go (x y : list pyval) {struct x} : bool :=
         match x, y with
         | [], [] => true
         | u :: x', v :: y' => py_eq u v && go x' y'
         | _, _ => false
         end) x y
  | VDict x, VDict y =>
      (List.length x =? List.length y)%nat &&
      (fix go (x : list (string * pyval)) {struct x} : bool :=
         match x with
         | [] => true
         | (k, u) :: x' =>
             match assoc k y with
             | Some v => py_eq u v && go x'
             | None => false
             end
         end) x
  | _, _ => false
  end.

(** [c in l] for a list [l] that came back from the database: no element is
    the very object [c], so membership is equality with some element. *)
Definition py_in (c : pyval) (l : list pyval) : bool :=
  existsb (fun element => py_eq element c) l.


(** ** Exceptions *)

Inductive pyexn : Type :=
| AttributeError | TypeError | ValueError | OverflowError
| IndexError | KeyError | WriteError
| UnicodeEncodeError | InvalidDocument.

Inductive py (A : Type) : Type :=
| Ret (a : A)
| Raise (e : pyexn).
Arguments Ret {A} a.
Arguments Raise {A} e.

Definition bind {A B : Type} (c : py A) (k : A -> py B) : py B :=
  match c with
  | Ret a => k a
  | Raise e => Raise e
  end.

Notation "x <- c ;; k" := (bind c (fun x => k))
  (at level 61, c at next level, right associativity).

(** ** Operations on request fields *)

(** [data.get(k)] and [data.get(k, default)]: only a dict has [get]. *)
Definition dict_get_default (data : pyval) (k : string) (default : pyval)
  : py pyval :=
  match data with
  | VDict d => Ret (match assoc k d with Some v => v | None => default end)
  | _ => Raise AttributeError
  end.

Definition dict_get (data : pyval) (k : string) : py pyval :=
  dict_get_default data k VNone.

(** A [str] that [json.loads] returns can hold a lone surrogate (from an
    escape such as \ud800), which has no UTF-8 encoding.  It is held here as
    the three bytes that the UTF-8 scheme would give its code point: the
    byte ED followed by a byte in A0..BF, a pair that no encoding of a
    character contains. *)
Fixpoint has_surrogate (s : string) : bool :=
  match s with
  | String c s' =>
      match s' with
      | String c' _ =>
          let n := Z.of_nat (nat_of_ascii c) in
          let n' := Z.of_nat (nat_of_ascii c') in
          ((n =? 237) && (160 <=? n') && (n' <=? 191)) || has_surrogate s'
      | EmptyString => false
      end
  | EmptyString => false
  end.

(** [password.encode("utf-8")]: only a [str] has [encode]; it raises on a
    lone surrogate, and is otherwise the identity on the representation. *)
Definition str_encode (v : pyval) : py bytes :=
  match v with
  | VStr s =>
      if has_surrogate s then Raise UnicodeEncodeError
      else Ret (list_byte_of_string s)
  | _ => Raise AttributeError
  end.

(** [int(s)] for a [str] of ASCII characters: surrounding white space (tab
    to carriage return, and the space), an optional sign, decimal digits
    with single underscores between them.  A string with other characters
    is refused here; the decimal digits and spaces of other scripts, which
    [int] also reads, and the limit that recent interpreters put on the
    number of digits are not covered by this definition. *)
Definition is_space (c : ascii) : bool :=
  let n := Z.of_nat (nat_of_ascii c) in
  ((9 <=? n) && (n <=? 13)) || (n =? 32).

Definition digit_of (c : ascii) : option Z :=
  let n := Z.of_nat (nat_of_ascii c) in
  if (48 <=? n) && (n <=? 57) then Some (n - 48) else None.

Fixpoint lstrip (s : string) : string :=
  match s with
  | String c s' => if is_space c then lstrip s' else s
  | EmptyString => s
  end.

Fixpoint rstrip (s : string) : string :=
  match s with
  | String c s' =>
      match rstrip s' with
      | EmptyString => if is_space c then EmptyString else String c EmptyString
      | r => String c r
      end
  | EmptyString => s
  end.

Fixpoint parse_digits (s : string) (acc : Z) (after_digit : bool) : option Z :=
  match s with
  | EmptyString => if after_digit then Some acc else None
  | String c s' =>
      match digit_of c with
      | Some d => parse_digits s' (10 * acc + d) true
      | None =>
          if Ascii.eqb c "_" && after_digit then parse_digits s' acc false
          else None
      end
  end.

Definition int_of_str (s : string) : option Z :=
  match rstrip (lstrip s) with
  | String "-" s' => option_map Z.opp (parse_digits s' 0 false)
  | String "+" s' => parse_digits s' 0 false
  | s' => parse_digits s' 0 false
  end.

(** The builtin [int(v)]. *)
Definition py_int (v : pyval) : py Z :=
  match v with
  | VInt z => Ret z
  | VBool b => Ret (num_of_bool b)
  | VFloat f =>
      match Float64.trunc f with
      | Some z => Ret z
      | None =>
          match f with
          | S754_nan => Raise ValueError
          | _ => Raise OverflowError
          end
      end
  | VStr s =>
      match int_of_str s with
      | Some z => Ret z
      | None => Raise ValueError
      end
  | VNone | VList _ | VDict _ => Raise TypeError
  end.

(** The characters of a [str]: a UTF-8 byte 10xxxxxx continues the character
    begun before it. *)
Definition is_continuation (c : ascii) : bool :=
  let n := Z.of_nat (nat_of_ascii c) in (128 <=? n) && (n <? 192).

Fixpoint split_chars (s : string) : string * list string :=
  match s with
  | EmptyString => (EmptyString, [])
  | String c s' =>
      let '(tail, chars) := split_chars s' in
      if is_continuation c then (String c tail, chars)
      else (EmptyString, String c tail :: chars)
  end.

Definition str_chars (s : string) : list string := snd (split_chars s).

(** [seq[i]] for an [int] index: lists and strings are indexed (a negative
    index counts from the end); a dict from JSON has only [str] keys, so an
    [int] key is never found; nothing else can be subscripted. *)
Definition seq_index {A : Type} (l : list A) (i : Z) : py A :=
  let n := Z.of_nat (List.length l) in
  let j := if i <? 0 then i + n else i in
  if (j <? 0) || (n <=? j) then Raise IndexError
  else match nth_error l (Z.to_nat j) with
       | Some x => Ret x
       | None => Raise IndexError
       end.

Definition py_getitem (v : pyval) (i : Z) : py pyval :=
  match v with
  | VList l => seq_index l i
  | VStr s => c <- seq_index (str_chars s) i;; Ret (VStr c)
  | VDict _ => Raise KeyError
  | VNone | VBool _ | VInt _ | VFloat _ => Raise TypeError
  end.

(** Numbers, for the attendance percentage: [n / 10] on an [int] is true
    division, [round] keeps an [int] and rounds a [float]. *)
Inductive pynum : Type :=
| NInt (z : Z)
| NFloat (f : spec_float).

Definition num_val (n : pynum) : pyval :=
  match n with
  | NInt z => VInt z
  | NFloat f => VFloat f
  end.

Definition int_truediv (a b : Z) : spec_float :=
  Float64.div (Float64.of_Z a) (Float64.of_Z b).

Definition float_mul_int (x : spec_float) (b : Z) : spec_float :=
  Float64.mul x (Float64.of_Z b).

Definition py_round2 (n : pynum) : pynum :=
  match n with
  | NInt z => NInt z
  | NFloat f => NFloat (Float64.round2 f)
  end.

(** ** The database *)

(** The collections hold the documents the views insert and hand them back
    unchanged.  A write first encodes its document as BSON, which refuses an
    integer beyond 64 bits, a string with a lone surrogate and a key with a
    NUL byte ([bson_encode] below).  The limits of the server on the size
    and the nesting of a document and the field names that a server version
    reserves are outside the model, and so is the encoding of the filter of
    a query: the properties that conclude that a write is accepted assume
    [storable] below of the values written, which stays clear of them.

    Equality of two stored values as a MongoDB query compares them: numbers
    by value across int and double ([nan] equal to itself), booleans only
    with booleans, embedded documents field by field in order. *)
Definition bson_float_eq (x y : spec_float) : bool :=
  match x, y with
  | S754_nan, S754_nan => true
  | _, _ => SFeqb x y
  end.

Fixpoint bson_eq (a b : pyval) {struct a} : bool :=
  match a, b with
  | VNone, VNone => true
  | VBool x, VBool y => Bool.eqb x y
  | VInt x, VInt y => x =? y
  | VInt x, VFloat y => Float64.eqb_Z y x
  | VFloat x, VInt y => Float64.eqb_Z x y
  | VFloat x, VFloat y => bson_float_eq x y
  | VStr x, VStr y => String.eqb x y
  | VList x, VList y =>
      (fix go (x y : list pyval) {struct x} : bool :=
         match x, y with
         | [], [] => true
         | u :: x', v :: y' => bson_eq u v && go x' y'
         | _, _ => false
         end) x y
  | VDict x, VDict y =>
      (fix go (x y : list (string * pyval)) {struct x} : bool :=
         match x, y with
         | [], [] => true
         | (k, u) :: x', (k', v) :: y' =>
             String.eqb k k' && bson_eq u v && go x' y'
         | _, _ => false
         end) x y
  | _, _ => false
  end.

(** The filter [{field: q}]: the stored value equals [q], or is an array
    with an element equal to [q].  (A [q] that is a document of query
    operators is not interpreted: it is compared as an embedded document.) *)
Definition mongo_match (q stored : pyval) : bool :=
  bson_eq q stored ||
  match stored with
  | VList l => existsb (bson_eq q) l
  | _ => false
  end.

(** Documents of the collection [users], as [signup] builds them. *)
Record student_details : Type := {
  sd_class : pyval;
  sd_registerNumber : pyval;
  sd_mobileNumber : pyval;
  sd_address : pyval
}.

Record user : Type := {
  u_username : pyval;
  u_password : bytes;
  u_name : pyval;
  u_type : pyval;
  u_details : option student_details
}.

(** Documents of [attendance], [quizzes], [quiz_results], [study_materials]. *)
Record attendance_record : Type := {
  a_username : pyval;
  a_attendance : list pyval
}.

Record quiz : Type := {
  q_question : pyval;
  q_options : pyval;
  q_correctAnswer : pyval
}.

Record quiz_result : Type := {
  r_studentUsername : pyval;
  r_percentage : pyval
}.

Record study_material : Type := {
  m_name : pyval;
  m_file : pyval
}.

(** Documents of [timetable] are the request payload itself, so they keep
    their [_id]: the one the payload carried, or the ObjectId the driver
    generated. *)
Inductive doc_id : Type :=
| ObjectId (n : nat)
| GivenId (v : pyval).

Record timetable_doc : Type := {
  t_id : doc_id;
  t_fields : list (string * pyval)
}.

Record store : Type := {
  users : list user;
  attendance : list attendance_record;
  quizzes : list quiz;
  quiz_results : list quiz_result;
  study_materials : list study_material;
  timetable : list timetable_doc;
  next_oid : nat
}.

Definition empty_store : store :=
  {| users := []; attendance := []; quizzes := []; quiz_results := [];
     study_materials := []; timetable := []; next_oid := 0 |}.

Definition set_users (db : store) (l : list user) : store :=
  {| users := l; attendance := attendance db; quizzes := quizzes db;
     quiz_results := quiz_results db; study_materials := study_materials db;
     timetable := timetable db; next_oid := next_oid db |}.

Definition set_attendance (db : store) (l : list attendance_record) : store :=
  {| users := users db; attendance := l; quizzes := quizzes db;
     quiz_results := quiz_results db; study_materials := study_materials db;
     timetable := timetable db; next_oid := next_oid db |}.

Definition set_quizzes (db : store) (l : list quiz) : store :=
  {| users := users db; attendance := attendance db; quizzes := l;
     quiz_results := quiz_results db; study_materials := study_materials db;
     timetable := timetable db; next_oid := next_oid db |}.

Definition set_quiz_results (db : store) (l : list quiz_result) : store :=
  {| users := users db; attendance := attendance db; quizzes := quizzes db;
     quiz_results := l; study_materials := study_materials db;
     timetable := timetable db; next_oid := next_oid db |}.

Definition set_study_materials (db : store) (l : list study_material) : store :=
  {| users := users db; attendance := attendance db; quizzes := quizzes db;
     quiz_results := quiz_results db; study_materials := l;
     timetable := timetable db; next_oid := next_oid db |}.

Definition set_timetable (db : store) (l : list timetable_doc) (n : nat)
  : store :=
  {| users := users db; attendance := attendance db; quizzes := quizzes db;
     quiz_results := quiz_results db; study_materials := study_materials db;
     timetable := l; next_oid := n |}.

(** [collection.find_one(filter)] and [collection.find(filter)], and the
    collection after an insertion and after an update of the first match. *)
Definition find_one {A : Type} (filter : A -> bool) (coll : list A)
  : option A := List.find filter coll.

Definition find {A : Type} (filter : A -> bool) (coll : list A) : list A :=
  List.filter filter coll.

Definition inserted {A : Type} (doc : A) (coll : list A) : list A :=
  coll ++ [doc].

Fixpoint updated {A : Type} (filter : A -> bool) (f : A -> A)
  (coll : list A) : list A :=
  match coll with
  | [] => []
  | d :: coll' =>
      if filter d then f d :: coll' else d :: updated filter f coll'
  end.

(** What the BSON encoder of the driver does with a value before it is
    sent: nothing is returned, and the first value it cannot encode raises.
    Keys are written before their values, elements in order. *)
Definition int64_min : Z := - 9223372036854775808.
Definition int64_max : Z := 9223372036854775807.

Fixpoint has_nul (s : string) : bool :=
  match s with
  | String c s' => (Z.of_nat (nat_of_ascii c) =? 0) || has_nul s'
  | EmptyString => false
  end.

Definition bson_key (k : string) : py unit :=
  if has_nul k then Raise InvalidDocument
  else if has_surrogate k then Raise UnicodeEncodeError
  else Ret tt.

Fixpoint bson_encode (v : pyval) {struct v} : py unit :=
  match v with
  | VNone | VBool _ | VFloat _ => Ret tt
  | VInt z =>
      if (int64_min <=? z) && (z <=? int64_max) then Ret tt
      else Raise OverflowError
  | VStr s => if has_surrogate s then Raise UnicodeEncodeError else Ret tt
  | VList l =>
      (fix go (l : list pyval) {struct l} : py unit :=
         match l with
         | [] => Ret tt
         | x :: l' => bind (bson_encode x) (fun _ => go l')
         end) l
  | VDict d =>
      (fix go (d : list (string * pyval)) {struct d} : py unit :=
         match d with
         | [] => Ret tt
         | (k, x) :: d' =>
             bind (bson_key k)
               (fun _ => bind (bson_encode x) (fun _ => go d'))
         end) d
  end.

Fixpoint bson_encode_all (values : list pyval) : py unit :=
  match values with
  | [] => Ret tt
  | v :: values' => bind (bson_encode v) (fun _ => bson_encode_all values')
  end.

(** [collection.insert_one(doc)] and
    [collection.update_one(filter, {"$set": ...})]: the values written are
    encoded, then the collection is changed. *)
Definition insert_one {A : Type} (values : list pyval) (doc : A)
  (coll : list A) : py (list A) :=
  bind (bson_encode_all values) (fun _ => Ret (inserted doc coll)).

Definition update_one {A : Type} (filter : A -> bool) (values : list pyval)
  (f : A -> A) (coll : list A) : py (list A) :=
  bind (bson_encode_all values) (fun _ => Ret (updated filter f coll)).

(** A sufficient condition for a value to be taken as a field of a document
    by the driver and by the server, whatever their versions: the driver
    encodes it; no field name in it is empty, starts with [$] or has a dot
    (older drivers and servers refuse such names, and a filter reads a
    document with [$] names as query operators); it is nested less than 32
    levels deep (the server stops at 100); and its encoding takes at most
    1 MiB (a document may take 16).  [bson_size_bound] is an upper bound of
    the size of the encoding. *)
Definition is_operator (k : string) : bool :=
  match k with
  | String "$" _ => true
  | _ => false
  end.

Fixpoint has_dot (s : string) : bool :=
  match s with
  | String c s' => (Z.of_nat (nat_of_ascii c) =? 46) || has_dot s'
  | EmptyString => false
  end.

Definition plain_key (k : string) : bool :=
  negb (String.eqb k "") && negb (is_operator k) && negb (has_dot k).

Fixpoint plain_keys (v : pyval) {struct v} : bool :=
  match v with
  | VList l =>
      (fix go (l : list pyval) {struct l} : bool :=
         match l with
         | [] => true
         | x :: l' => plain_keys x && go l'
         end) l
  | VDict d =>
      (fix go (d : list (string * pyval)) {struct d} : bool :=
         match d with
         | [] => true
         | (k, x) :: d' => plain_key k && plain_keys x && go d'
         end) d
  | _ => true
  end.

Fixpoint depth (v : pyval) {struct v} : Z :=
  match v with
  | VList l =>
      1 + (fix go (l : list pyval) {struct l} : Z :=
             match l with
             | [] => 0
             | x :: l' => Z.max (depth x) (go l')
             end) l
  | VDict d =>
      1 + (fix go (d : list (string * pyval)) {struct d} : Z :=
             match d with
             | [] => 0
             | (_, x) :: d' => Z.max (depth x) (go d')
             end) d
  | _ => 0
  end.

Fixpoint bson_size_bound (v : pyval) {struct v} : Z :=
  match v with
  | VNone => 0
  | VBool _ => 1
  | VInt _ | VFloat _ => 8
  | VStr s => 5 + Z.of_nat (String.length s)
  | VList l =>
      5 + (fix go (l : list pyval) {struct l} : Z :=
             match l with
             | [] => 0
             | x :: l' => 12 + bson_size_bound x + go l'
             end) l
  | VDict d =>
      5 + (fix go (d : list (string * pyval)) {struct d} : Z :=
             match d with
             | [] => 0
             | (k, x) :: d' =>
                 2 + Z.of_nat (String.length k) + bson_size_bound x + go d'
             end) d
  end.

Definition storable (v : pyval) : bool :=
  match bson_encode v with Ret _ => true | Raise _ => false end
  && plain_keys v && (depth v <=? 32) && (bson_size_bound v <=? 1048576).

(** The values of a user document, in the order of its fields; the hashed
    password is binary data, which always encodes. *)
Definition user_values (u : user) : list pyval :=
  [u_username u; u_name u; u_type u] ++
  match u_details u with
  | Some d => [sd_class d; sd_registerNumber d; sd_mobileNumber d; sd_address d]
  | None => []
  end.

Definition by_username (username : pyval) (u : user) : bool :=
  mongo_match username (u_username u).

Definition by_username_and_type (username type : pyval) (u : user) : bool :=
  mongo_match username (u_username u) && mongo_match type (u_type u).

Definition by_type (type : pyval) (u : user) : bool :=
  mongo_match type (u_type u).

Definition attendance_of (username : pyval) (a : attendance_record) : bool :=
  mongo_match username (a_username a).

(** ** Replies *)

Record token : Type := {
  sub : pyval;
  exp : Z
}.

Inductive body : Type :=
| Msg (text : string)
| MsgClass (before : string) (class_number : pyval) (after : string)
| Login (access_token : token) (user_type username : pyval)
| Json (v : pyval).

Definition reply : Type := body * Z.

(** What the client gets: the reply of the view, or the 500 that Flask makes
    of an exception the view lets through. *)
Inductive outcome : Type :=
| Reply (r : reply)
| Unhandled (e : pyexn).

Definition dispatch (view : store -> py (store * reply)) (db : store)
  : store * outcome :=
  match view db with
  | Ret (db', r) => (db', Reply r)
  | Raise e => (db, Unhandled e)
  end.

(** ** Tokens *)

Definition timedelta_days (d : Z) : Z := d * 86400.

Definition create_access_token (now : Z) (identity : pyval)
  (expires_delta : Z) : token :=
  {| sub := identity; exp := now + expires_delta |}.

Inductive authorization : Type :=
| NoHeader
| Bearer (t : token).

(** [@jwt_required()]: the view runs with the identity of an unexpired
    token, and is not entered otherwise. *)
Definition jwt_required (now : Z) (auth : authorization)
  (view : pyval -> store -> py (store * reply)) (db : store)
  : py (store * reply) :=
  match auth with
  | NoHeader => Ret (db, (Msg "Missing Authorization Header", 401))
  | Bearer t =>
      if exp t <=? now then Ret (db, (Msg "Token has expired", 401))
      else view (sub t) db
  end.

(** ** The views *)


Section Views.

(** [bcrypt.hashpw(password, salt)] and [bcrypt.checkpw(password, hashed)],
    taken as total functions on byte strings; the salt that
    [bcrypt.gensalt()] draws is an input of [signup].  Nothing is assumed
    of them: whether a password is accepted is left to [checkpw]. *)
Variable hashpw : bytes -> bytes -> bytes.
Variable checkpw : bytes -> bytes -> bool.

Definition signup (salt : bytes) (data : pyval) (db : store)
  : py (store * reply) :=
  username <- dict_get data "username";;
  password <- dict_get data "password";;
  name <- dict_get data "name";;
  user_type <- dict_get data "type";;
  if negb (truthy username) || negb (truthy password)
     || negb (truthy name) || negb (truthy user_type)
  then Ret (db, (Msg "All fields (username, password, name, type) are required.", 400))
  else
    match find_one (by_username username) (users db) with
    | Some _ => Ret (db, (Msg "Username already exists", 400))
    | None =>
        encoded <- str_encode password;;
        let hashed_password := hashpw encoded salt in
        student_details <-
          (if py_eq user_type (VStr "Student") then
             class <- dict_get_default data "class" (VStr "");;
             registerNumber <- dict_get_default data "registerNumber" (VStr "");;
             mobileNumber <- dict_get_default data "mobileNumber" (VStr "");;
             address <- dict_get_default data "address" (VStr "");;
             Ret (Some {| sd_class := class;
                          sd_registerNumber := registerNumber;
                          sd_mobileNumber := mobileNumber;
                          sd_address := address |})
           else Ret None);;
        let user_data :=
          {| u_username := username; u_password := hashed_password;
             u_name := name; u_type := user_type;
             u_details := student_details |} in
        stored <- insert_one (user_values user_data) user_data (users db);;
        Ret (set_users db stored, (Msg "User created successfully!", 201))
    end.

Definition login (now : Z) (data : pyval) (db : store)
  : py (store * reply) :=
  username <- dict_get data "username";;
  password <- dict_get data "password";;
  if negb (truthy username) || negb (truthy password)
  then Ret (db, (Msg "Username and password are required.", 400))
  else
    match find_one (by_username username) (users db) with
    | Some user =>
        encoded <- str_encode password;;
        if checkpw encoded (u_password user) then
          let access_token :=
            create_access_token now username (timedelta_days 1) in
          Ret (db, (Login access_token (u_type user) (u_username user), 200))
        else Ret (db, (Msg "Invalid credentials", 401))
    | None => Ret (db, (Msg "Invalid credentials", 401))
    end.

Definition mark_attendance (data : pyval) (username : pyval) (db : store)
  : py (store * reply) :=
  class_number <- dict_get data "class_number";;
  if negb (truthy class_number)
  then Ret (db, (Msg "Class number is required.", 400))
  else
    match find_one (by_username_and_type username (VStr "Student")) (users db) with
    | None => Ret (db, (Msg "Student not found.", 404))
    | Some _ =>
        match find_one (attendance_of username) (attendance db) with
        | Some student_attendance =>
            if py_in class_number (a_attendance student_attendance) then
              Ret (db, (MsgClass "Attendance for Class " class_number
                                 " is already marked.", 400))
            else
              let marked := a_attendance student_attendance ++ [class_number] in
              let set a := {| a_username := a_username a;
                              a_attendance := marked |} in
              stored <- update_one (attendance_of username) [VList marked] set
                          (attendance db);;
              Ret (set_attendance db stored,
                   (MsgClass "Attendance for Class " class_number " marked.", 200))
        | None =>
            let record := {| a_username := username;
                             a_attendance := [class_number] |} in
            stored <- insert_one [username; VList [class_number]] record
                        (attendance db);;
            Ret (set_attendance db stored,
                 (MsgClass "Attendance for Class " class_number " marked.", 200))
        end
    end.

Definition attendance_percentage (db : store) (student : user) : pynum :=
  match find_one (attendance_of (u_username student)) (attendance db) with
  | Some student_attendance =>
      let attendance_count :=
        Z.of_nat (List.length (a_attendance student_attendance)) in
      NFloat (float_mul_int (int_truediv attendance_count 10) 100)
  | None => NInt 0
  end.

Definition detail (student : user) (field : student_details -> pyval)
  : pyval :=
  match u_details student with
  | Some d => field d
  | None => VStr "N/A"
  end.

Definition student_data (db : store) (student : user) : pyval :=
  VDict [ ("username", u_username student);
          ("name", u_name student);
          ("attendance", num_val (py_round2 (attendance_percentage db student)));
          ("class", detail student sd_class);
          ("registerNumber", detail student sd_registerNumber);
          ("mobileNumber", detail student sd_mobileNumber) ].

Definition get_students (current_user : pyval) (db : store)
  : py (store * reply) :=
  let students := find (by_type (VStr "Student")) (users db) in
  Ret (db, (Json (VList (map (student_data db) students)), 200)).

Definition create_quiz (data : pyval) (current_user : pyval) (db : store)
  : py (store * reply) :=
  question <- dict_get data "question";;
  options <- dict_get data "options";;
  correctAnswer <- dict_get data "correctAnswer";;
  if negb (truthy question) || negb (truthy options)
     || negb (truthy correctAnswer)
  then Ret (db, (Msg "Please provide all the fields: question, options, and correctAnswer.", 400))
  else
    match py_int correctAnswer with
    | Raise ValueError =>
        Ret (db, (Msg "Correct answer must be a number.", 400))
    | Raise e => Raise e
    | Ret correct_answer =>
        if negb ((1 <=? correct_answer) && (correct_answer <=? 4))
        then Ret (db, (Msg "Correct answer must be between 1 and 4.", 400))
        else
          answer <- py_getitem options (correct_answer - 1);;
          let quiz := {| q_question := question; q_options := options;
                         q_correctAnswer := answer |} in
          stored <- insert_one [question; options; answer] quiz (quizzes db);;
          Ret (set_quizzes db stored,
               (Msg "Quiz created successfully!", 201))
    end.

Definition save_quiz_result (data : pyval) (current_user : pyval)
  (db : store) : py (store * reply) :=
  student_username <- dict_get data "studentUsername";;
  percentage <- dict_get data "percentage";;
  if negb (truthy student_username) || negb (truthy percentage)
  then Ret (db, (Msg "Student username and percentage are required.", 400))
  else
    let result := {| r_studentUsername := student_username;
                     r_percentage := percentage |} in
    stored <- insert_one [student_username; percentage] result
                (quiz_results db);;
    Ret (set_quiz_results db stored,
         (Msg "Quiz result saved successfully!", 201)).

Definition upload_study_material (data : pyval) (db : store)
  : py (store * reply) :=
  name <- dict_get data "name";;
  file <- dict_get data "file";;
  if negb (truthy name) || negb (truthy file)
  then Ret (db, (Msg "File name and file data are required.", 400))
  else
    let study_material := {| m_name := name; m_file := file |} in
    stored <- insert_one [name; file] study_material (study_materials db);;
    Ret (set_study_materials db stored,
         (Msg "Study material uploaded successfully!", 201)).

(** The two writes of [save_timetable].  Both take a dict only, and encode
    it, its [_id] first, before it is sent.  The
    server never changes the [_id] of a document: a replacement that
    carries another [_id] is refused, and so is an array as [_id] or an
    [_id] already in the collection. *)
Definition without_id (d : list (string * pyval)) : list (string * pyval) :=
  List.filter (fun kv => negb (String.eqb (fst kv) "_id")) d.

Definition has_id (v : pyval) (t : timetable_doc) : bool :=
  match t_id t with
  | GivenId w => bson_eq v w
  | ObjectId _ => false
  end.

Definition bson_encode_document (d : list (string * pyval)) : py unit :=
  _ <- match assoc "_id" d with
       | Some v => bson_encode v
       | None => Ret tt
       end;;
  bson_encode (VDict (without_id d)).

Definition insert_document (document : pyval) (coll : list timetable_doc)
  (oid : nat) : py (list timetable_doc * nat) :=
  match document with
  | VDict d =>
      _ <- bson_encode_document d;;
      match assoc "_id" d with
      | Some (VList _) => Raise WriteError
      | Some v =>
          if existsb (has_id v) coll then Raise WriteError
          else Ret (coll ++ [{| t_id := GivenId v; t_fields := without_id d |}], oid)
      | None =>
          Ret (coll ++ [{| t_id := ObjectId oid; t_fields := d |}], S oid)
      end
  | _ => Raise TypeError
  end.

Definition replace_one (replacement : pyval) (coll : list timetable_doc)
  : py (list timetable_doc) :=
  match replacement with
  | VDict d =>
      if match d with (k, _) :: _ => is_operator k | [] => false end
      then Raise ValueError
      else
        _ <- bson_encode_document d;;
        match coll with
        | [] => Ret []
        | old :: rest =>
            let new := {| t_id := t_id old; t_fields := without_id d |} in
            match assoc "_id" d with
            | Some v => if has_id v old then Ret (new :: rest)
                        else Raise WriteError
            | None => Ret (new :: rest)
            end
        end
  | _ => Raise TypeError
  end.

Definition save_timetable (data : pyval) (db : store)
  : py (store * reply) :=
  if negb (truthy data)
  then Ret (db, (Msg "No data provided", 400))
  else
    match find_one (fun _ => true) (timetable db) with
    | Some existing_timetable =>
        replaced <- replace_one data (timetable db);;
        Ret (set_timetable db replaced (next_oid db),
             (Msg "Timetable updated successfully!", 200))
    | None =>
        inserted <- insert_document data (timetable db) (next_oid db);;
        Ret (set_timetable db (fst inserted) (snd inserted),
             (Msg "Timetable saved successfully!", 201))
    end.

(** ** Requests *)

(** The requests that write to the database or that the properties below
    speak of, and the server as a transition function over them. *)
Inductive request : Type :=
| POST_signup (salt : bytes) (data : pyval)
| POST_login (now : Z) (data : pyval)
| POST_mark_attendance (now : Z) (auth : authorization) (data : pyval)
| GET_students (now : Z) (auth : authorization)
| POST_create_quiz (now : Z) (auth : authorization) (data : pyval)
| POST_save_quiz_result (now : Z) (auth : authorization) (data : pyval)
| POST_upload_study_material (data : pyval)
| POST_save_timetable (data : pyval).

Definition route (r : request) : store -> py (store * reply) :=
  match r with
  | POST_signup salt data => signup salt data
  | POST_login now data => login now data
  | POST_mark_attendance now auth data =>
      jwt_required now auth (mark_attendance data)
  | GET_students now auth => jwt_required now auth get_students
  | POST_create_quiz now auth data =>
      jwt_required now auth (create_quiz data)
  | POST_save_quiz_result now auth data =>
      jwt_required now auth (save_quiz_result data)
  | POST_upload_study_material data => upload_study_material data
  | POST_save_timetable data => save_timetable data
  end.

Definition handle (r : request) (db : store) : store * outcome :=
  dispatch (route r) db.

Definition serve (rs : list request) (db : store) : store :=
  fold_left (fun db r => fst (handle r db)) rs db.

End Views.

(** ** A stand-in for bcrypt *)

(** The views are parametric in the hash.  To run them on concrete requests
    the examples below use the hash that keeps the password as it is. *)
Fixpoint bytes_eqb (a b : bytes) : bool :=
  match a, b with
  | [], [] => true
  | x :: a', y :: b' => Byte.eqb x y && bytes_eqb a' b'
  | _, _ => false
  end.

Module Plain.
Definition hashpw (password salt : bytes) : bytes := password.
Definition checkpw (password hashed : bytes) : bool :=
  bytes_eqb password hashed.
End Plain.

(** The request body of [login]. *)
Definition credentials (username password : string) : pyval :=
  VDict [("username", VStr username); ("password", VStr password)].

(** ** Sample data *)

Definition alice : user :=
  {| u_username := VStr "alice";
     u_password := list_byte_of_string "secret";
     u_name := VStr "Alice"; u_type := VStr "Teacher"; u_details := None |}.

(** The string that [json.loads] makes of the escape \ud800. *)
Definition lone_surrogate : string :=
  String (ascii_of_nat 237)
    (String (ascii_of_nat 160) (String (ascii_of_nat 128) EmptyString)).

Definition bob_signup : list (string * pyval) :=
  [("username", VStr "bob"); ("password", VStr "hunter2");
   ("name", VStr "Bob"); ("type", VStr "Student"); ("class", VStr "10-B")].

Definition bob : user :=
  {| u_username := VStr "bob";
     u_password := list_byte_of_string "hunter2";
     u_name := VStr "Bob"; u_type := VStr "Student";
     u_details := Some {| sd_class := VStr "10-B";
                          sd_registerNumber := VStr "";
                          sd_mobileNumber := VStr "";
                          sd_address := VStr "" |} |}.

Definition bob_store : store := set_users empty_store [bob].

(** ** Observations on the store *)



(** The sessions marked for a user: the list of the attendance record that
    the views find for that username, empty when they find none. *)
Definition marked_sessions (db : store) (username : pyval) : list pyval :=
  match find_one (attendance_of username) (attendance db) with
  | Some a => a_attendance a
  | None => []
  end.

Definition bob_attended : store :=
  set_attendance bob_store
    [{| a_username := VStr "bob";
        a_attendance := [VInt 1; VInt 2; VStr "lab"] |}].

(** ** The views that only read *)

(** [get_quizzes] and [get_quiz_results] copy the fields of every stored
    document; [get_attendance] answers with the marked sessions of the
    caller, and with an empty list and 404 when there is no record. *)
Definition quiz_entry (quiz : quiz) : pyval :=
  VDict [ ("question", q_question quiz);
          ("options", q_options quiz);
          ("correctAnswer", q_correctAnswer quiz) ].

Definition get_quizzes (identity : pyval) (db : store) : py (store * reply) :=
  let quizzes := find (fun _ => true) (quizzes db) in
  Ret (db, (Json (VList (map quiz_entry quizzes)), 200)).

Definition result_entry (result : quiz_result) : pyval :=
  VDict [ ("studentUsername", r_studentUsername result);
          ("percentage", r_percentage result) ].

Definition get_quiz_results (identity : pyval) (db : store)
  : py (store * reply) :=
  let results := find (fun _ => true) (quiz_results db) in
  Ret (db, (Json (VList (map result_entry results)), 200)).

Definition get_attendance (username : pyval) (db : store)
  : py (store * reply) :=
  match find_one (attendance_of username) (attendance db) with
  | Some student_attendance =>
      Ret (db, (Json (VDict [("attendance",
                              VList (a_attendance student_attendance))]), 200))
  | None => Ret (db, (Json (VDict [("attendance", VList [])]), 404))
  end.

(** [get_timetable] hands the stored document to [jsonify], [_id] first as
    the database returns it.  How an ObjectId is rendered, and whether it
    can be, is up to the JSON provider of the application: [jsonify_oid]. *)
Definition timetable_document (jsonify_oid : nat -> py pyval)
  (t : timetable_doc) : py pyval :=
  id <- match t_id t with
        | GivenId v => Ret v
        | ObjectId n => jsonify_oid n
        end;;
  Ret (VDict (("_id", id) :: t_fields t)).

Definition get_timetable (jsonify_oid : nat -> py pyval) (db : store)
  : py (store * reply) :=
  match find_one (fun _ => true) (timetable db) with
  | None => Ret (db, (Msg "No timetable found", 404))
  | Some timetable =>
      document <- timetable_document jsonify_oid timetable;;
      Ret (db, (Json document, 200))
  end.

(** One list is the beginning of another. *)
Definition prefix_of {A : Type} (l l' : list A) : Prop :=
  exists rest, l' = l ++ rest.

(** The collections that no view updates or deletes from: they only grow. *)
Definition grows (db db' : store) : Prop :=
  prefix_of (users db) (users db') /\
  prefix_of (quizzes db) (quizzes db') /\
  prefix_of (quiz_results db) (quiz_results db') /\
  prefix_of (study_materials db) (study_materials db').

Definition erin : user :=
  {| u_username := VStr "erin"; u_password := list_byte_of_string "pw";
     u_name := VStr "Erin"; u_type := VStr "Student"; u_details := None |}.

Definition class_store : store := set_users bob_attended [bob; erin].

Definition carol_signup : list (string * pyval) :=
  [("username", VStr "carol"); ("password", VStr "pw");
   ("name", VStr "Carol"); ("type", VList [VStr "Student"; VStr "Monitor"])].

(** * Properties *)

(** ** Auxiliary facts *)

Lemma dict_get_assoc (d : list (string * pyval)) (k : string) (v : pyval) :
  assoc k d = Some v -> dict_get (VDict d) k = Ret v.
Proof. unfold dict_get, dict_get_default. now intros ->. Qed.


Lemma dict_get_is_dict (data : pyval) (k : string) (v : pyval) :
  dict_get data k = Ret v -> exists d, data = VDict d.
Proof. destruct data; try discriminate. intros _. now exists d. Qed.

Lemma mongo_match_str (a b : string) :
  mongo_match (VStr a) (VStr b) = String.eqb a b.
Proof. unfold mongo_match. simpl. apply orb_false_r. Qed.

Lemma find_one_insert_one {A : Type} (p : A -> bool) (coll : list A) (x : A) :
  find_one p (inserted x coll) =
  match find_one p coll with
  | Some y => Some y
  | None => if p x then Some x else None
  end.
Proof.
  unfold find_one, inserted.
  induction coll as [|y coll IH]; simpl.
  - reflexivity.
  - destruct (p y); [reflexivity | exact IH].
Qed.

Lemma find_one_update_one {A : Type} (p : A -> bool) (f : A -> A)
  (coll : list A) (a : A) :
  find_one p coll = Some a -> p (f a) = true ->
  find_one p (updated p f coll) = Some (f a).
Proof.
  unfold find_one.
  induction coll as [|y coll IH]; simpl; [discriminate|].
  destruct (p y) eqn:Hy; intros Hfind Hf.
  - injection Hfind as ->. simpl. now rewrite Hf.
  - simpl. rewrite Hy. now apply IH.
Qed.

Lemma py_unit (c : py unit) : (exists e, c = Raise e) \/ c = Ret tt.
Proof. destruct c as [[]|e]; [now right | left; now exists e]. Qed.

Lemma bson_encode_list (l : list pyval) :
  bson_encode (VList l) = bson_encode_all l.
Proof.
  induction l as [|x l IH]; [reflexivity|].
  cbn [bson_encode_all]. rewrite <- IH. reflexivity.
Qed.

Lemma bson_encode_all_app (l l' : list pyval) :
  bson_encode_all (l ++ l') =
  bind (bson_encode_all l) (fun _ => bson_encode_all l').
Proof.
  induction l as [|x l IH]; [reflexivity|].
  cbn [app bson_encode_all]. destruct (bson_encode x); [|reflexivity].
  cbn [bind]. exact IH.
Qed.

Lemma bson_encode_all_In (l : list pyval) (x : pyval) :
  bson_encode_all l = Ret tt -> In x l -> bson_encode x = Ret tt.
Proof.
  induction l as [|y l IH]; [intros _ []|].
  cbn [bson_encode_all]. intros Hall [-> | Hin].
  - destruct (py_unit (bson_encode x)) as [[e He] | He]; [|exact He].
    rewrite He in Hall. discriminate.
  - apply IH; [|exact Hin].
    destruct (bson_encode y); [exact Hall | discriminate].
Qed.

Lemma bson_encode_all_intro (l : list pyval) :
  (forall x, In x l -> bson_encode x = Ret tt) -> bson_encode_all l = Ret tt.
Proof.
  induction l as [|y l IH]; intros H; [reflexivity|].
  cbn [bson_encode_all]. rewrite (H y (or_introl eq_refl)). cbn [bind].
  apply IH. intros x Hx. apply H. now right.
Qed.

Lemma insert_one_Ret {A : Type} (values : list pyval) (doc : A)
  (coll stored : list A) :
  insert_one values doc coll = Ret stored ->
  stored = coll ++ [doc] /\ bson_encode_all values = Ret tt.
Proof.
  unfold insert_one, inserted.
  destruct (py_unit (bson_encode_all values)) as [[e ->] | ->];
    [discriminate|].
  cbn [bind]. intros [= <-]. now split.
Qed.

Lemma update_one_Ret {A : Type} (filter : A -> bool) (values : list pyval)
  (f : A -> A) (coll stored : list A) :
  update_one filter values f coll = Ret stored ->
  stored = updated filter f coll /\ bson_encode_all values = Ret tt.
Proof.
  unfold update_one.
  destruct (py_unit (bson_encode_all values)) as [[e ->] | ->];
    [discriminate|].
  cbn [bind]. intros [= <-]. now split.
Qed.





Lemma storable_encodes (v : pyval) :
  storable v = true -> bson_encode v = Ret tt.
Proof.
  unfold storable. destruct (bson_encode v) as [[]|e]; [reflexivity|].
  discriminate.
Qed.

Lemma insert_one_encoded {A : Type} (values : list pyval) (doc : A)
  (coll : list A) :
  (forall v, In v values -> bson_encode v = Ret tt) ->
  insert_one values doc coll = Ret (coll ++ [doc]).
Proof.
  intros H. unfold insert_one. now rewrite (bson_encode_all_intro _ H).
Qed.

Lemma update_one_encoded {A : Type} (filter : A -> bool)
  (values : list pyval) (f : A -> A) (coll : list A) :
  (forall v, In v values -> bson_encode v = Ret tt) ->
  update_one filter values f coll = Ret (updated filter f coll).
Proof.
  intros H. unfold update_one. now rewrite (bson_encode_all_intro _ H).
Qed.

(** ** Quiz results *)

(** C10.  [save_quiz_result] takes a supplied but falsy field for a missing
    one: with a [percentage] that is falsy, the number 0 for one, or a
    [studentUsername] that is, the empty string for one, both fields being
    present in the request, the reply is the 400 of a missing field and
    nothing is stored. *)
Theorem save_quiz_result_falsy_field_rejected :
  forall (d : list (string * pyval)) (current_user su pct : pyval) (db : store),
    assoc "studentUsername" d = Some su ->
    assoc "percentage" d = Some pct ->
    truthy pct = false \/ truthy su = false ->
    dispatch (save_quiz_result (VDict d) current_user) db =
    (db, Reply (Msg "Student username and percentage are required.", 400)).
Proof.
  intros d current_user su pct db Hsu Hpct Hfalsy.
  unfold dispatch, save_quiz_result.
  rewrite (dict_get_assoc _ _ _ Hsu), (dict_get_assoc _ _ _ Hpct).
  cbn [bind].
  destruct Hfalsy as [-> | ->]; cbn [negb orb].
  - now rewrite orb_true_r.
  - reflexivity.
Qed.

Lemma save_quiz_result_falsy_field_rejected_witness :
  dispatch (save_quiz_result
              (VDict [("studentUsername", VStr "amy"); ("percentage", VInt 0)])
              (VStr "teacher")) empty_store =
  (empty_store, Reply (Msg "Student username and percentage are required.", 400)).
Proof.
  apply (save_quiz_result_falsy_field_rejected _ _ (VStr "amy") (VInt 0)).
  - reflexivity.
  - reflexivity.
  - left. reflexivity.
Defined.

(** ** Quiz creation *)

Lemma seq_index_Ret {A : Type} (l : list A) (i : Z) (x : A) :
  0 <= i -> seq_index l i = Ret x ->
  i < Z.of_nat (List.length l) /\ nth_error l (Z.to_nat i) = Some x.
Proof.
  intros Hi. unfold seq_index.
  destruct (i <? 0) eqn:Hneg; [lia|].
  rewrite Hneg. simpl.
  destruct (Z.of_nat (List.length l) <=? i) eqn:Hlen; [discriminate|].
  destruct (nth_error l (Z.to_nat i)) eqn:Hnth; [|discriminate].
  intros [= ->]. split; [lia | reflexivity].
Qed.

Lemma seq_index_in_range {A : Type} (l : list A) (i : Z) :
  0 <= i < Z.of_nat (List.length l) ->
  exists x, nth_error l (Z.to_nat i) = Some x /\ seq_index l i = Ret x.
Proof.
  intros Hi. unfold seq_index.
  destruct (i <? 0) eqn:Hneg; [lia|].
  rewrite Hneg. simpl.
  destruct (Z.of_nat (List.length l) <=? i) eqn:Hlen; [lia|].
  destruct (nth_error l (Z.to_nat i)) as [x|] eqn:Hnth.
  - now exists x.
  - apply nth_error_None in Hnth. lia.
Qed.

(** What [create_quiz] does with a well-formed request: an integer index
    within 1..4 and a list of options long enough, that BSON can encode,
    store the option at that position; an integer outside 1..4 and a string that is no number are
    refused with 400. *)
Lemma create_quiz_stores_kth_option
  (d : list (string * pyval)) (question : pyval) (options : list pyval)
  (k : Z) (current_user : pyval) (db : store) :
  assoc "question" d = Some question -> truthy question = true ->
  assoc "options" d = Some (VList options) ->
  assoc "correctAnswer" d = Some (VInt k) ->
  1 <= k <= 4 -> k <= Z.of_nat (List.length options) ->
  bson_encode question = Ret tt -> bson_encode (VList options) = Ret tt ->
  exists answer,
    nth_error options (Z.to_nat (k - 1)) = Some answer /\
    create_quiz (VDict d) current_user db =
    Ret (set_quizzes db
           (quizzes db ++ [{| q_question := question;
                              q_options := VList options;
                              q_correctAnswer := answer |}]),
         (Msg "Quiz created successfully!", 201)).
Proof.
  intros Hq Hqt Ho Hk Hrange Hlen Hbq Hbo.
  destruct (seq_index_in_range options (k - 1)) as (answer & Hnth & Hidx);
    [lia|].
  assert (Hba : bson_encode answer = Ret tt).
  { rewrite bson_encode_list in Hbo.
    apply (bson_encode_all_In _ _ Hbo). eapply nth_error_In. exact Hnth. }
  exists answer. split; [exact Hnth|].
  unfold create_quiz.
  rewrite (dict_get_assoc _ _ _ Hq), (dict_get_assoc _ _ _ Ho),
    (dict_get_assoc _ _ _ Hk).
  cbn [bind]. rewrite Hqt.
  assert (truthy (VList options) = true) as ->.
  { destruct options; [simpl in Hlen; lia | reflexivity]. }
  assert (truthy (VInt k) = true) as ->.
  { simpl. destruct (k =? 0) eqn:E; [lia | reflexivity]. }
  cbn [negb orb py_int].
  assert ((1 <=? k) && (k <=? 4) = true) as ->.
  { apply andb_true_iff. split; apply Z.leb_le; lia. }
  cbn [negb py_getitem]. rewrite Hidx. cbn [bind].
  unfold insert_one. cbn [bson_encode_all]. now rewrite Hbq, Hbo, Hba.
Qed.

Lemma create_quiz_index_out_of_range
  (d : list (string * pyval)) (question options : pyval) (k : Z)
  (current_user : pyval) (db : store) :
  assoc "question" d = Some question ->
  assoc "options" d = Some options ->
  assoc "correctAnswer" d = Some (VInt k) ->
  k < 1 \/ 4 < k ->
  exists text, create_quiz (VDict d) current_user db = Ret (db, (Msg text, 400)).
Proof.
  intros Hq Ho Hk Hrange.
  unfold create_quiz.
  rewrite (dict_get_assoc _ _ _ Hq), (dict_get_assoc _ _ _ Ho),
    (dict_get_assoc _ _ _ Hk).
  cbn [bind].
  destruct (negb (truthy question) || negb (truthy options)
            || negb (truthy (VInt k))); [eauto|].
  cbn [py_int].
  assert ((1 <=? k) && (k <=? 4) = false) as ->.
  { apply andb_false_iff. destruct Hrange; [left | right]; apply Z.leb_gt; lia. }
  cbn [negb]. eauto.
Qed.

Lemma create_quiz_non_numeric_string
  (d : list (string * pyval)) (question options : pyval) (s : string)
  (current_user : pyval) (db : store) :
  assoc "question" d = Some question ->
  assoc "options" d = Some options ->
  assoc "correctAnswer" d = Some (VStr s) ->
  int_of_str s = None ->
  exists text, create_quiz (VDict d) current_user db = Ret (db, (Msg text, 400)).
Proof.
  intros Hq Ho Hk Hs.
  unfold create_quiz.
  rewrite (dict_get_assoc _ _ _ Hq), (dict_get_assoc _ _ _ Ho),
    (dict_get_assoc _ _ _ Hk).
  cbn [bind].
  destruct (negb (truthy question) || negb (truthy options)
            || negb (truthy (VStr s))); [eauto|].
  cbn [py_int]. rewrite Hs. eauto.
Qed.

(** C7.  The request of the specification's example,
    [{"question": "q", "options": ["a","b","c","d"], "correctAnswer": 2}],
    stores the answer "b"; but a [correctAnswer] that is not numeric and is
    not a string either, here the list [[1]], makes [int] raise [TypeError],
    which the handler for [ValueError] does not catch: the request ends in
    an unhandled exception instead of the 400 of a validation error. *)
Theorem create_quiz_non_numeric_list_unhandled :
  forall (current_user : pyval) (db : store),
    dispatch (create_quiz
                (VDict [("question", VStr "q");
                        ("options", VList [VStr "a"; VStr "b"; VStr "c"; VStr "d"]);
                        ("correctAnswer", VInt 2)]) current_user) db =
    (set_quizzes db
       (quizzes db ++
          [{| q_question := VStr "q";
              q_options := VList [VStr "a"; VStr "b"; VStr "c"; VStr "d"];
              q_correctAnswer := VStr "b" |}]),
     Reply (Msg "Quiz created successfully!", 201))
    /\
    dispatch (create_quiz
                (VDict [("question", VStr "q");
                        ("options", VList [VStr "a"; VStr "b"; VStr "c"; VStr "d"]);
                        ("correctAnswer", VList [VInt 1])]) current_user) db =
    (db, Unhandled TypeError).
Proof. intros current_user db. split; reflexivity. Qed.

(** C9.  No validation of [create_quiz] compares the length of [options]
    with [correctAnswer].  The request with options ["a"] and correctAnswer
    3 passes every check and then indexes out of bounds: it is answered
    neither by a 400 nor by a stored quiz, but by an unhandled [IndexError].
    And whenever a request with a list of options is answered 201, the
    index is within 1..4, the list has at least that many elements, and
    the element at that position is what was stored. *)
Theorem create_quiz_index_unguarded :
  (forall (current_user : pyval) (db : store),
      dispatch (create_quiz
                  (VDict [("question", VStr "q");
                          ("options", VList [VStr "a"]);
                          ("correctAnswer", VInt 3)]) current_user) db =
      (db, Unhandled IndexError))
  /\
  (forall (data current_user : pyval) (options : list pyval)
          (db db' : store) (b : body),
      dict_get data "options" = Ret (VList options) ->
      create_quiz data current_user db = Ret (db', (b, 201)) ->
      exists (question correctAnswer answer : pyval) (k : Z),
        dict_get data "question" = Ret question /\
        dict_get data "correctAnswer" = Ret correctAnswer /\
        py_int correctAnswer = Ret k /\
        1 <= k <= 4 /\
        k <= Z.of_nat (List.length options) /\
        nth_error options (Z.to_nat (k - 1)) = Some answer /\
        db' = set_quizzes db
                (quizzes db ++ [{| q_question := question;
                                   q_options := VList options;
                                   q_correctAnswer := answer |}])).
Proof.
  split; [reflexivity|].
  intros data current_user options db db' b Hopts Hok.
  destruct (dict_get_is_dict _ _ _ Hopts) as [d ->].
  unfold create_quiz in Hok.
  unfold dict_get, dict_get_default in Hopts, Hok.
  injection Hopts as Hopts. cbn [bind] in Hok. rewrite Hopts in Hok.
  set (question := match assoc "question" d with
                   | Some v => v | None => VNone end) in *.
  set (correctAnswer := match assoc "correctAnswer" d with
                        | Some v => v | None => VNone end) in *.
  destruct (negb (truthy question) || negb (truthy (VList options))
            || negb (truthy correctAnswer)); [discriminate|].
  destruct (py_int correctAnswer) as [k|e] eqn:Hint.
  2:{ destruct e; discriminate. }
  destruct ((1 <=? k) && (k <=? 4)) eqn:Hrange; [|discriminate].
  apply andb_true_iff in Hrange. destruct Hrange as [H1 H4].
  apply Z.leb_le in H1, H4.
  cbn [negb py_getitem] in Hok.
  destruct (seq_index options (k - 1)) as [answer|e] eqn:Hidx; [|discriminate].
  apply seq_index_Ret in Hidx; [|lia]. destruct Hidx as [Hlen Hnth].
  cbn [bind] in Hok.
  destruct (insert_one _ _ _) as [stored|e] eqn:Hins; [|discriminate].
  apply insert_one_Ret in Hins. destruct Hins as [-> _].
  cbn [bind] in Hok. injection Hok as <- _.
  exists question, correctAnswer, answer, k.
  unfold dict_get, dict_get_default.
  repeat split; try reflexivity; try assumption; lia.
Qed.

Lemma create_quiz_index_unguarded_witness :
  exists (question correctAnswer answer : pyval) (k : Z),
    dict_get (VDict [("question", VStr "q");
                     ("options", VList [VStr "a"; VStr "b"; VStr "c"]);
                     ("correctAnswer", VStr "3")]) "question" = Ret question /\
    dict_get (VDict [("question", VStr "q");
                     ("options", VList [VStr "a"; VStr "b"; VStr "c"]);
                     ("correctAnswer", VStr "3")]) "correctAnswer"
    = Ret correctAnswer /\
    py_int correctAnswer = Ret k /\
    1 <= k <= 4 /\
    k <= Z.of_nat (List.length [VStr "a"; VStr "b"; VStr "c"]) /\
    nth_error [VStr "a"; VStr "b"; VStr "c"] (Z.to_nat (k - 1)) = Some answer /\
    set_quizzes empty_store
      [{| q_question := VStr "q";
          q_options := VList [VStr "a"; VStr "b"; VStr "c"];
          q_correctAnswer := VStr "c" |}]
    = set_quizzes empty_store
        (quizzes empty_store ++
           [{| q_question := question;
               q_options := VList [VStr "a"; VStr "b"; VStr "c"];
               q_correctAnswer := answer |}]).
Proof.
  apply (proj2 create_quiz_index_unguarded
           (VDict [("question", VStr "q");
                   ("options", VList [VStr "a"; VStr "b"; VStr "c"]);
                   ("correctAnswer", VStr "3")])
           (VStr "teacher") [VStr "a"; VStr "b"; VStr "c"] empty_store _
           (Msg "Quiz created successfully!")).
  - reflexivity.
  - reflexivity.
Defined.

(** ** Login *)

Lemma bytes_eqb_eq (a b : bytes) : bytes_eqb a b = true <-> a = b.
Proof.
  revert b. induction a as [|x a IH]; intros [|y b]; simpl;
    try (split; [discriminate | congruence]); [tauto|].
  rewrite andb_true_iff, IH. split.
  - intros [Hxy ->]. now rewrite (Byte.byte_dec_bl _ _ Hxy).
  - intros [= -> ->]. split; [now apply Byte.byte_dec_lb | reflexivity].
Qed.

Lemma list_byte_of_string_inj (s t : string) :
  list_byte_of_string s = list_byte_of_string t -> s = t.
Proof.
  intros H.
  rewrite <- (string_of_list_byte_of_string s),
    <- (string_of_list_byte_of_string t).
  now rewrite H.
Qed.

Lemma truthy_str (s : string) : truthy (VStr s) = true <-> s <> "".
Proof.
  simpl. rewrite negb_true_iff. split.
  - intros H ->. discriminate.
  - intros H. apply String.eqb_neq. exact H.
Qed.

Section Login.

Variable checkpw : bytes -> bytes -> bool.

Lemma login_no_such_user (now : Z) (d : list (string * pyval))
  (username password : pyval) (db : store) :
  assoc "username" d = Some username -> truthy username = true ->
  assoc "password" d = Some password -> truthy password = true ->
  find_one (by_username username) (users db) = None ->
  login checkpw now (VDict d) db = Ret (db, (Msg "Invalid credentials", 401)).
Proof.
  intros Hu Hut Hp Hpt Hfind. unfold login.
  rewrite (dict_get_assoc _ _ _ Hu), (dict_get_assoc _ _ _ Hp).
  cbn [bind]. rewrite Hut, Hpt, Hfind. reflexivity.
Qed.

Lemma login_wrong_password (now : Z) (d : list (string * pyval))
  (username : pyval) (password : string) (user : user) (db : store) :
  assoc "username" d = Some username -> truthy username = true ->
  assoc "password" d = Some (VStr password) -> password <> "" ->
  has_surrogate password = false ->
  find_one (by_username username) (users db) = Some user ->
  checkpw (list_byte_of_string password) (u_password user) = false ->
  login checkpw now (VDict d) db = Ret (db, (Msg "Invalid credentials", 401)).
Proof.
  intros Hu Hut Hp Hpt Hs Hfind Hcheck. unfold login.
  rewrite (dict_get_assoc _ _ _ Hu), (dict_get_assoc _ _ _ Hp).
  cbn [bind]. rewrite Hut, (proj2 (truthy_str password) Hpt), Hfind.
  cbn [negb orb str_encode]. rewrite Hs. cbn [bind].
  rewrite Hcheck. reflexivity.
Qed.

Lemma login_right_password (now : Z) (d : list (string * pyval))
  (username : pyval) (password : string) (user : user) (db : store) :
  assoc "username" d = Some username -> truthy username = true ->
  assoc "password" d = Some (VStr password) -> password <> "" ->
  has_surrogate password = false ->
  find_one (by_username username) (users db) = Some user ->
  checkpw (list_byte_of_string password) (u_password user) = true ->
  login checkpw now (VDict d) db =
  Ret (db, (Login (create_access_token now username (timedelta_days 1))
              (u_type user) (u_username user), 200)).
Proof.
  intros Hu Hut Hp Hpt Hs Hfind Hcheck. unfold login.
  rewrite (dict_get_assoc _ _ _ Hu), (dict_get_assoc _ _ _ Hp).
  cbn [bind]. rewrite Hut, (proj2 (truthy_str password) Hpt), Hfind.
  cbn [negb orb str_encode]. rewrite Hs. cbn [bind].
  rewrite Hcheck. reflexivity.
Qed.

(** A password that cannot be encoded, because it is not a string or
    because it holds a lone surrogate, is encoded only once a user has been
    found: then [encode] raises, and the request ends in an unhandled
    exception. *)
Lemma login_password_not_a_string (now : Z) (d : list (string * pyval))
  (username password : pyval) (user : user) (db : store) :
  assoc "username" d = Some username -> truthy username = true ->
  assoc "password" d = Some password -> truthy password = true ->
  (forall s, password <> VStr s) ->
  find_one (by_username username) (users db) = Some user ->
  login checkpw now (VDict d) db = Raise AttributeError.
Proof.
  intros Hu Hut Hp Hpt Hstr Hfind. unfold login.
  rewrite (dict_get_assoc _ _ _ Hu), (dict_get_assoc _ _ _ Hp).
  cbn [bind]. rewrite Hut, Hpt, Hfind. cbn [negb orb].
  destruct password; try reflexivity. now destruct (Hstr s).
Qed.


(** For a password that is a non-empty string without a lone surrogate, the
    same login request fails in the same way whether no user has the
    username (store [db]) or a user has it and the password does not match
    the stored hash (store [db']): both replies are the 401 with the
    message "Invalid credentials", and neither store changes. *)
Lemma login_string_password_failures_agree
  (now now' : Z) (d : list (string * pyval)) (username : pyval)
  (password : string) (user : user) (db db' : store) :
  assoc "username" d = Some username -> truthy username = true ->
  assoc "password" d = Some (VStr password) -> password <> "" ->
  has_surrogate password = false ->
  find_one (by_username username) (users db) = None ->
  find_one (by_username username) (users db') = Some user ->
  checkpw (list_byte_of_string password) (u_password user) = false ->
  dispatch (login checkpw now (VDict d)) db =
  (db, Reply (Msg "Invalid credentials", 401)) /\
  dispatch (login checkpw now' (VDict d)) db' =
  (db', Reply (Msg "Invalid credentials", 401)).
Proof.
  intros Hu Hut Hp Hpt Hs Hnone Hsome Hcheck.
  unfold dispatch.
  rewrite (login_no_such_user now d username (VStr password) db);
    try assumption; [|now apply truthy_str].
  rewrite (login_wrong_password now' d username password user db');
    try assumption.
  now split.
Qed.

End Login.

(** C1.  The failure of a login is not the same in the two cases for every
    request.  The request with username "alice" and the number 12345 as
    password is answered 401 "Invalid credentials" when no user is called
    alice; when alice is a stored user the password is encoded before it is
    checked, [encode] raises [AttributeError], and the request ends in an
    unhandled exception.  The same happens, with [UnicodeEncodeError], for
    a password that is a string with a lone surrogate.  The two outcomes
    differ, so the response tells whether the username exists. *)
Theorem login_unencodable_password_reveals_username :
  forall (checkpw : bytes -> bytes -> bool) (now : Z),
    dispatch (login checkpw now
                (VDict [("username", VStr "alice"); ("password", VInt 12345)]))
      empty_store =
    (empty_store, Reply (Msg "Invalid credentials", 401))
    /\
    dispatch (login checkpw now
                (VDict [("username", VStr "alice"); ("password", VInt 12345)]))
      (set_users empty_store [alice]) =
    (set_users empty_store [alice], Unhandled AttributeError)
    /\
    dispatch (login checkpw now (credentials "alice" lone_surrogate))
      empty_store =
    (empty_store, Reply (Msg "Invalid credentials", 401))
    /\
    dispatch (login checkpw now (credentials "alice" lone_surrogate))
      (set_users empty_store [alice]) =
    (set_users empty_store [alice], Unhandled UnicodeEncodeError).
Proof. intros checkpw now. repeat split. Qed.


(** ** Signup *)

(** The two ways [signup] can answer: a 400 that leaves the store alone, or
    the 201 that appends the new user, whose username no stored user
    matched and whose password is a non-empty string. *)
Lemma signup_cases (hashpw : bytes -> bytes -> bytes) (salt : bytes)
  (data : pyval) (db db' : store) (r : reply) :
  signup hashpw salt data db = Ret (db', r) ->
  (db' = db /\ snd r = 400) \/
  (exists (username name user_type : pyval) (password : string)
          (details : option student_details),
      dict_get data "username" = Ret username /\ truthy username = true /\
      dict_get data "password" = Ret (VStr password) /\ password <> "" /\
      dict_get data "name" = Ret name /\ truthy name = true /\
      dict_get data "type" = Ret user_type /\ truthy user_type = true /\
      find_one (by_username username) (users db) = None /\
      db' = set_users db
              (users db ++
                 [{| u_username := username;
                     u_password := hashpw (list_byte_of_string password) salt;
                     u_name := name; u_type := user_type;
                     u_details := details |}]) /\
      r = (Msg "User created successfully!", 201) /\
      has_surrogate password = false).
Proof.
  unfold signup. destruct data; try discriminate.
  unfold dict_get, dict_get_default. cbn [bind].
  set (username := match assoc "username" d with Some v => v | None => VNone end).
  set (password := match assoc "password" d with Some v => v | None => VNone end).
  set (name := match assoc "name" d with Some v => v | None => VNone end).
  set (user_type := match assoc "type" d with Some v => v | None => VNone end).
  destruct (truthy username) eqn:Hu; cbn [negb orb];
    [|intros [= <- <-]; now left].
  destruct (truthy password) eqn:Hp; cbn [negb orb];
    [|intros [= <- <-]; now left].
  destruct (truthy name) eqn:Hn; cbn [negb orb];
    [|intros [= <- <-]; now left].
  destruct (truthy user_type) eqn:Ht; cbn [negb orb];
    [|intros [= <- <-]; now left].
  destruct (find_one (by_username username) (users db)) eqn:Hfind;
    [intros [= <- <-]; now left|].
  destruct password as [| | | |password| |]; try discriminate.
  cbn [str_encode].
  destruct (has_surrogate password) eqn:Hs; [discriminate|]. cbn [bind].
  destruct (py_eq user_type (VStr "Student")); cbn [bind];
    (destruct (insert_one _ _ _) as [stored|e] eqn:Hins; [|discriminate]);
    apply insert_one_Ret in Hins; destruct Hins as [-> _]; cbn [bind];
    intros [= <- <-]; right;
    eexists username, name, user_type, password, _;
    (repeat split; try reflexivity; try assumption; now apply truthy_str).
Qed.

Section Bcrypt.

Variable hashpw : bytes -> bytes -> bytes.
Variable checkpw : bytes -> bytes -> bool.


End Bcrypt.

Lemma plain_checkpw_accepts (password salt : bytes) :
  Plain.checkpw password (Plain.hashpw password salt) = true.
Proof. unfold Plain.checkpw, Plain.hashpw. now apply bytes_eqb_eq. Qed.



(** ** What each request may write *)

Ltac split_view H :=
  repeat match type of H with
         | context [match ?x with _ => _ end] =>
             destruct x eqn:?; cbn [bind fst snd] in H; try discriminate H
         end.

(** Only [signup] writes to [users], only [save_timetable] to [timetable]. *)
Lemma route_frame (hashpw : bytes -> bytes -> bytes)
  (checkpw : bytes -> bytes -> bool) (r : request) (db db' : store)
  (rep : reply) :
  route hashpw checkpw r db = Ret (db', rep) ->
  match r with
  | POST_signup _ _ => timetable db' = timetable db
  | POST_save_timetable _ => users db' = users db
  | _ => users db' = users db /\ timetable db' = timetable db
  end.
Proof.
  destruct r; cbn [route]; intros H.
  - apply signup_cases in H.
    destruct H as [[-> _] | (? & ? & ? & ? & ? & H)]; [reflexivity|].
    now destruct H as (_ & _ & _ & _ & _ & _ & _ & _ & _ & -> & _).
  - unfold login, dict_get, dict_get_default, str_encode in H.
    split_view H; injection H as <- _; now split.
  - unfold jwt_required, mark_attendance, dict_get, dict_get_default,
      insert_one, update_one, bind in H.
    split_view H; injection H as <- _; now split.
  - unfold jwt_required, get_students in H.
    split_view H; injection H as <- _; now split.
  - unfold jwt_required, create_quiz, dict_get, dict_get_default in H.
    destruct auth as [|t]; [injection H as <- _; now split|].
    destruct (exp t <=? now); [injection H as <- _; now split|].
    destruct data; try discriminate H. cbn [bind] in H.
    destruct (negb _ || negb _ || negb _); [injection H as <- _; now split|].
    destruct (py_int _) as [k|[]]; try discriminate H;
      [|injection H as <- _; now split].
    destruct (negb _); [injection H as <- _; now split|].
    destruct (py_getitem _ _); [|discriminate H].
    cbn [bind] in H.
    destruct (insert_one _ _ _); [|discriminate H].
    cbn [bind] in H. injection H as <- _; now split.
  - unfold jwt_required, save_quiz_result, dict_get, dict_get_default,
      insert_one, bind in H.
    split_view H; injection H as <- _; now split.
  - unfold upload_study_material, dict_get, dict_get_default,
      insert_one, bind in H.
    split_view H; injection H as <- _; now split.
  - unfold save_timetable in H.
    destruct (negb (truthy data)); [now injection H as <- _|].
    destruct (find_one _ _);
      [destruct (replace_one _ _) | destruct (insert_document _ _ _)];
      try discriminate H; cbn [bind] in H; now injection H as <- _.
Qed.

(** ** Uniqueness of usernames *)








(** ** The timetable *)

Lemma without_id_absent (d : list (string * pyval)) :
  assoc "_id" d = None -> without_id d = d.
Proof.
  induction d as [|[k v] d IH]; [reflexivity|].
  unfold without_id. cbn [assoc List.filter fst].
  destruct (String.eqb "_id" k) eqn:Hk; [discriminate|].
  intros H. rewrite String.eqb_sym, Hk. cbn [negb].
  f_equal. now apply IH.
Qed.

Lemma storable_document (d : list (string * pyval)) :
  assoc "_id" d = None -> storable (VDict d) = true ->
  bson_encode_document d = Ret tt.
Proof.
  intros Hid Hs. unfold bson_encode_document.
  rewrite Hid, (without_id_absent _ Hid). cbn [bind].
  now apply storable_encodes.
Qed.

Lemma storable_first_key (d : list (string * pyval)) :
  storable (VDict d) = true ->
  match d with (k, _) :: _ => is_operator k | [] => false end = false.
Proof.
  unfold storable. rewrite !andb_true_iff. intros [[[_ Hkeys] _] _].
  destruct d as [|[k x] d]; [reflexivity|].
  cbn [plain_keys] in Hkeys. unfold plain_key in Hkeys.
  rewrite !andb_true_iff in Hkeys.
  destruct Hkeys as [[[[_ Hop] _] _] _].
  now apply negb_true_iff in Hop.
Qed.

(** The ways [save_timetable] can answer: the 400 for a falsy payload, the
    201 of an insertion into an empty collection, the 200 of a replacement
    of the first stored document, which keeps its [_id]. *)
Lemma save_timetable_cases (data : pyval) (db db' : store) (rep : reply) :
  save_timetable data db = Ret (db', rep) ->
  (db' = db /\ snd rep = 400) \/
  (exists d id,
      data = VDict d /\ timetable db = [] /\ snd rep = 201 /\
      timetable db' = [{| t_id := id; t_fields := without_id d |}]) \/
  (exists d old rest,
      data = VDict d /\ timetable db = old :: rest /\ snd rep = 200 /\
      timetable db' = {| t_id := t_id old; t_fields := without_id d |} :: rest).
Proof.
  unfold save_timetable.
  destruct (negb (truthy data)); [intros [= <- <-]; now left|].
  destruct (timetable db) as [|old rest] eqn:Htt; cbn [find_one List.find].
  - destruct data; try discriminate. cbn [insert_document].
    destruct (bson_encode_document d) as [[]|e]; [|discriminate].
    cbn [bind].
    destruct (assoc "_id" d) as [v|] eqn:Hid.
    + destruct v; cbn [existsb bind app fst snd]; try discriminate;
        intros [= <- <-]; right; left; eexists d, _;
        now repeat split.
    + cbn [bind app fst snd]. intros [= <- <-]. right; left.
      exists d, (ObjectId (next_oid db)). repeat split.
      cbn [timetable set_timetable]. now rewrite without_id_absent.
  - destruct data; try discriminate. cbn [replace_one].
    destruct (match d with [] => false | (k, _) :: _ => is_operator k end);
      [discriminate|].
    destruct (bson_encode_document d) as [[]|e]; [|discriminate].
    cbn [bind].
    destruct (assoc "_id" d) as [v|]; [destruct (has_id v old)|];
      try discriminate; cbn [bind];
      intros [= <- <-]; right; right; exists d, old, rest; now repeat split.
Qed.

(** A payload that is a non-empty object without [_id] and that the
    database can store is accepted: inserted under a fresh ObjectId when the
    collection is empty, put in the place of the first document otherwise. *)
Lemma save_timetable_accepted (d : list (string * pyval)) (db : store) :
  d <> [] -> assoc "_id" d = None -> storable (VDict d) = true ->
  save_timetable (VDict d) db =
  match timetable db with
  | [] =>
      Ret (set_timetable db
             [{| t_id := ObjectId (next_oid db); t_fields := d |}]
             (S (next_oid db)),
           (Msg "Timetable saved successfully!", 201))
  | old :: rest =>
      Ret (set_timetable db
             ({| t_id := t_id old; t_fields := d |} :: rest) (next_oid db),
           (Msg "Timetable updated successfully!", 200))
  end.
Proof.
  intros Hne Hid Hs. unfold save_timetable.
  assert (truthy (VDict d) = true) as ->
      by (destruct d; [contradiction | reflexivity]).
  cbn [negb].
  destruct (timetable db) as [|old rest]; cbn [find_one List.find].
  - cbn [insert_document].
    rewrite (storable_document _ Hid Hs). cbn [bind].
    rewrite Hid. reflexivity.
  - cbn [replace_one].
    rewrite (storable_first_key _ Hs), (storable_document _ Hid Hs).
    cbn [bind]. rewrite Hid, (without_id_absent _ Hid). reflexivity.
Qed.

Lemma handle_keeps_one_timetable (hashpw : bytes -> bytes -> bytes)
  (checkpw : bytes -> bytes -> bool) (r : request) (db : store) :
  (List.length (timetable db) <= 1)%nat ->
  (List.length (timetable (fst (handle hashpw checkpw r db))) <= 1)%nat.
Proof.
  intros Hdb. unfold handle, dispatch.
  destruct (route hashpw checkpw r db) as [[db' rep]|e] eqn:E;
    [|exact Hdb].
  cbn [fst]. destruct r.
  2-7: apply route_frame in E; destruct E as [_ E]; now rewrite E.
  1: apply route_frame in E; now rewrite E.
  cbn [route] in E. apply save_timetable_cases in E.
  destruct E as [[-> _] | [(d & id & _ & _ & _ & ->)
                          | (d & old & rest & _ & Hold & _ & ->)]].
  - exact Hdb.
  - simpl. lia.
  - rewrite Hold in Hdb. exact Hdb.
Qed.

(** C8, as the code has it.  The timetable collection never holds more
    than one document: no request takes a store with at most one timetable
    document to a store with more.  A save that is answered 201 or 200 has
    inserted the payload into the empty collection (201) or replaced the
    stored document, which keeps its [_id] (200), and after two such saves
    there is exactly one document, with the fields of the second payload.
    A payload that is a non-empty object without [_id] and that the database
    can store is answered so: after two saves of such payloads, whatever
    hash the server runs with, the collection holds one document with the
    fields of the second.  A falsy payload, the empty object among them, is
    answered 400 and writes nothing. *)
Theorem timetable_single_document :
  (forall (hashpw : bytes -> bytes -> bytes) (checkpw : bytes -> bytes -> bool)
          (rs : list request) (db : store),
      (List.length (timetable db) <= 1)%nat ->
      (List.length (timetable (serve hashpw checkpw rs db)) <= 1)%nat)
  /\
  (forall (data : pyval) (db db' : store) (rep : reply),
      save_timetable data db = Ret (db', rep) -> snd rep <> 400 ->
      exists d,
        data = VDict d /\
        match timetable db with
        | [] =>
            snd rep = 201 /\
            exists id,
              timetable db' = [{| t_id := id; t_fields := without_id d |}]
        | old :: rest =>
            snd rep = 200 /\
            timetable db' =
            {| t_id := t_id old; t_fields := without_id d |} :: rest
        end)
  /\
  (forall (first second : pyval) (db db1 db2 : store) (rep1 rep2 : reply),
      (List.length (timetable db) <= 1)%nat ->
      save_timetable first db = Ret (db1, rep1) -> snd rep1 <> 400 ->
      save_timetable second db1 = Ret (db2, rep2) -> snd rep2 <> 400 ->
      exists d id,
        second = VDict d /\
        timetable db2 = [{| t_id := id; t_fields := without_id d |}])
  /\
  (forall (d : list (string * pyval)) (db : store),
      d <> [] -> assoc "_id" d = None -> storable (VDict d) = true ->
      save_timetable (VDict d) db =
      match timetable db with
      | [] =>
          Ret (set_timetable db
                 [{| t_id := ObjectId (next_oid db); t_fields := d |}]
                 (S (next_oid db)),
               (Msg "Timetable saved successfully!", 201))
      | old :: rest =>
          Ret (set_timetable db
                 ({| t_id := t_id old; t_fields := d |} :: rest)
                 (next_oid db),
               (Msg "Timetable updated successfully!", 200))
      end)
  /\
  (forall (hashpw : bytes -> bytes -> bytes) (checkpw : bytes -> bytes -> bool)
          (d1 d2 : list (string * pyval)) (db : store),
      (List.length (timetable db) <= 1)%nat ->
      d1 <> [] -> assoc "_id" d1 = None -> storable (VDict d1) = true ->
      d2 <> [] -> assoc "_id" d2 = None -> storable (VDict d2) = true ->
      exists id,
        timetable
          (serve hashpw checkpw
             [POST_save_timetable (VDict d1); POST_save_timetable (VDict d2)]
             db) =
        [{| t_id := id; t_fields := d2 |}])
  /\
  (forall (data : pyval) (db : store),
      truthy data = false ->
      dispatch (save_timetable data) db =
      (db, Reply (Msg "No data provided", 400))).
Proof.
  assert (Hsave : forall data db db' rep,
             save_timetable data db = Ret (db', rep) -> snd rep <> 400 ->
             exists d,
               data = VDict d /\
               match timetable db with
               | [] =>
                   snd rep = 201 /\
                   exists id,
                     timetable db' =
                     [{| t_id := id; t_fields := without_id d |}]
               | old :: rest =>
                   snd rep = 200 /\
                   timetable db' =
                   {| t_id := t_id old; t_fields := without_id d |} :: rest
               end).
  { intros data db db' rep Hsave Hok.
    apply save_timetable_cases in Hsave.
    destruct Hsave as [[_ H400] | [(d & id & -> & Hempty & H201 & Hnew)
                                  | (d & old & rest & -> & Hold & H200 & Hnew)]].
    - contradiction.
    - exists d. rewrite Hempty. eauto.
    - exists d. rewrite Hold. eauto. }
  split; [|split; [|split; [|split; [|split]]]].
  - intros hashpw checkpw rs. unfold serve.
    induction rs as [|r rs IH]; intros db Hdb; simpl.
    + exact Hdb.
    + apply IH. now apply handle_keeps_one_timetable.
  - exact Hsave.
  - intros first second db db1 db2 rep1 rep2 Hdb Hfirst Hok1 Hsecond Hok2.
    destruct (Hsave _ _ _ _ Hfirst Hok1) as (d1 & _ & H1).
    destruct (Hsave _ _ _ _ Hsecond Hok2) as (d2 & -> & H2).
    exists d2.
    destruct (timetable db) as [|old rest].
    + destruct H1 as (_ & id & H1). rewrite H1 in H2.
      destruct H2 as [_ H2]. now exists id.
    + destruct rest as [|]; [|simpl in Hdb; lia].
      destruct H1 as [_ H1]. rewrite H1 in H2.
      destruct H2 as [_ H2]. now exists (t_id old).
  - exact save_timetable_accepted.
  - intros hashpw checkpw d1 d2 db Hdb Hne1 Hid1 Hs1 Hne2 Hid2 Hs2.
    unfold serve. cbn [fold_left].
    unfold handle at 2, dispatch. cbn [route].
    rewrite (save_timetable_accepted d1 db Hne1 Hid1 Hs1).
    destruct (timetable db) as [|old rest] eqn:Htt; cbn [fst].
    + unfold handle, dispatch. cbn [route].
      rewrite (save_timetable_accepted d2 _ Hne2 Hid2 Hs2).
      cbn [timetable set_timetable fst t_id]. now eexists.
    + destruct rest as [|]; [|simpl in Hdb; lia].
      unfold handle, dispatch. cbn [route].
      rewrite (save_timetable_accepted d2 _ Hne2 Hid2 Hs2).
      cbn [timetable set_timetable fst t_id]. now eexists.
  - intros data db Hfalsy. unfold dispatch, save_timetable.
    now rewrite Hfalsy.
Qed.

Lemma timetable_single_document_witness :
  save_timetable (VDict [("monday", VStr "maths")]) empty_store =
  Ret (set_timetable empty_store
         [{| t_id := ObjectId 0; t_fields := [("monday", VStr "maths")] |}] 1,
       (Msg "Timetable saved successfully!", 201))
  /\
  (exists id,
      timetable
        (serve Plain.hashpw Plain.checkpw
           [POST_save_timetable (VDict [("monday", VStr "maths")]);
            POST_save_timetable (VDict [("monday", VStr "physics")])]
           empty_store) =
      [{| t_id := id; t_fields := [("monday", VStr "physics")] |}])
  /\
  (List.length
     (timetable
        (serve Plain.hashpw Plain.checkpw
           [POST_save_timetable (VDict [("monday", VStr "maths")]);
            POST_save_timetable (VDict [("monday", VStr "physics")])]
           empty_store)) <= 1)%nat.
Proof.
  split; [|split].
  - apply (proj1 (proj2 (proj2 (proj2 timetable_single_document)))
             [("monday", VStr "maths")] empty_store);
      [discriminate | reflexivity | vm_compute; reflexivity].
  - apply (proj1 (proj2 (proj2 (proj2 (proj2 timetable_single_document))))
             Plain.hashpw Plain.checkpw
             [("monday", VStr "maths")] [("monday", VStr "physics")]
             empty_store);
      first [discriminate | reflexivity | simpl; lia
            | vm_compute; reflexivity].
  - apply (proj1 timetable_single_document). simpl. lia.
Defined.

(** C8 as stated fails for the empty object: it is a payload the view
    receives, and the save neither inserts it into the empty collection nor
    puts it in the place of the stored document; after the two saves of
    "maths" and of the empty object the collection holds the first payload,
    not the second. *)
Lemma save_timetable_empty_payload_writes_nothing :
  handle Plain.hashpw Plain.checkpw (POST_save_timetable (VDict []))
    empty_store =
  (empty_store, Reply (Msg "No data provided", 400))
  /\
  timetable
    (serve Plain.hashpw Plain.checkpw
       [POST_save_timetable (VDict [("monday", VStr "maths")]);
        POST_save_timetable (VDict [])]
       empty_store) =
  [{| t_id := ObjectId 0; t_fields := [("monday", VStr "maths")] |}]
  /\
  timetable
    (serve Plain.hashpw Plain.checkpw
       [POST_save_timetable (VDict [("monday", VStr "maths")]);
        POST_save_timetable (VDict [])]
       empty_store) <>
  [{| t_id := ObjectId 0; t_fields := [] |}].
Proof. split; [reflexivity | split; [reflexivity | discriminate]]. Qed.

(** ** Attendance *)








(** ** Attendance percentage *)

Lemma float64_same_eq (x y : spec_float) : Float64.same x y = true -> x = y.
Proof.
  destruct x, y; simpl; try discriminate; try reflexivity.
  - intros H. now rewrite (Bool.eqb_prop _ _ H).
  - intros H. now rewrite (Bool.eqb_prop _ _ H).
  - rewrite !andb_true_iff. intros [[Hs Hm] He].
    apply Bool.eqb_prop in Hs. apply Pos.eqb_eq in Hm. apply Z.eqb_eq in He.
    now subst.
Qed.

(** For up to a thousand marked sessions the binary64 computation
    [round((n / 10) * 100, 2)] is exact: it yields the double 10 n. *)
Lemma percentage_exact (n : nat) :
  (n <= 1000)%nat ->
  Float64.round2 (float_mul_int (int_truediv (Z.of_nat n) 10) 100) =
  Float64.of_Z (10 * Z.of_nat n).
Proof.
  intros Hn.
  assert (Hall :
           forallb (fun k =>
                      Float64.same
                        (Float64.round2
                           (float_mul_int (int_truediv (Z.of_nat k) 10) 100))
                        (Float64.of_Z (10 * Z.of_nat k)))
             (seq 0 1001) = true) by (vm_compute; reflexivity).
  rewrite forallb_forall in Hall.
  apply float64_same_eq, Hall, in_seq. lia.
Qed.



(** * Further properties of the views *)

(** ** Signup *)

(** The user that a [signup] answered 201 has stored: the fields of the
    request, the hash of the encoded password, and the student details
    (each defaulting to the empty string) exactly when the type is equal to
    "Student". *)
Lemma signup_created_user (hashpw : bytes -> bytes -> bytes) (salt : bytes)
  (d : list (string * pyval)) (db db' : store) (b : body) :
  signup hashpw salt (VDict d) db = Ret (db', (b, 201)) ->
  exists (username name user_type : pyval) (password : string),
    assoc "username" d = Some username /\ truthy username = true /\
    assoc "password" d = Some (VStr password) /\ password <> "" /\
    assoc "name" d = Some name /\
    assoc "type" d = Some user_type /\
    find_one (by_username username) (users db) = None /\
    db' = set_users db
            (users db ++
               [{| u_username := username;
                   u_password := hashpw (list_byte_of_string password) salt;
                   u_name := name; u_type := user_type;
                   u_details :=
                     if py_eq user_type (VStr "Student") then
                       Some {| sd_class :=
                                 match assoc "class" d with
                                 | Some v => v | None => VStr "" end;
                               sd_registerNumber :=
                                 match assoc "registerNumber" d with
                                 | Some v => v | None => VStr "" end;
                               sd_mobileNumber :=
                                 match assoc "mobileNumber" d with
                                 | Some v => v | None => VStr "" end;
                               sd_address :=
                                 match assoc "address" d with
                                 | Some v => v | None => VStr "" end |}
                     else None |}]).
Proof.
  unfold signup, dict_get, dict_get_default. cbn [bind].
  destruct (assoc "username" d) as [username|]; [|discriminate].
  destruct (truthy username) eqn:Hu; [|discriminate]. cbn [negb orb].
  destruct (assoc "password" d) as [password|]; [|discriminate].
  destruct (truthy password) eqn:Hp; [|discriminate]. cbn [negb orb].
  destruct (assoc "name" d) as [name|]; [|discriminate].
  destruct (truthy name) eqn:Hn; [|discriminate]. cbn [negb orb].
  destruct (assoc "type" d) as [user_type|]; [|discriminate].
  destruct (truthy user_type) eqn:Ht; [|discriminate]. cbn [negb orb].
  destruct (find_one (by_username username) (users db)) eqn:Hfresh;
    [discriminate|].
  destruct password as [| | | |password| |]; try discriminate.
  cbn [str_encode].
  destruct (has_surrogate password); [discriminate|]. cbn [bind].
  destruct (py_eq user_type (VStr "Student")) eqn:Hstudent; cbn [bind];
    (destruct (insert_one _ _ _) as [stored|e] eqn:Hins; [|discriminate]);
    apply insert_one_Ret in Hins; destruct Hins as [-> _]; cbn [bind];
    intros [= <- _]; exists username, name, user_type, password;
    rewrite Hstudent;
    repeat split; first [assumption | reflexivity | now apply truthy_str].
Qed.

(** X1.  A [signup] request in which one of the fields username, password,
    name and type is absent or falsy is answered with the 400 that asks for
    all four, and the store is unchanged. *)
Theorem signup_missing_field :
  forall (hashpw : bytes -> bytes -> bytes) (salt : bytes)
         (d : list (string * pyval)) (k : string) (db : store),
    In k ["username"; "password"; "name"; "type"] ->
    assoc k d = None \/ (exists v, assoc k d = Some v /\ truthy v = false) ->
    dispatch (signup hashpw salt (VDict d)) db =
    (db, Reply (Msg "All fields (username, password, name, type) are required.", 400)).
Proof.
  intros hashpw salt d k db Hk Hmissing.
  assert (Hfalsy : truthy (match assoc k d with
                           | Some v => v | None => VNone end) = false).
  { destruct Hmissing as [-> | (v & -> & Hv)]; [reflexivity | exact Hv]. }
  unfold dispatch, signup, dict_get, dict_get_default. cbn [bind].
  simpl in Hk.
  destruct Hk as [<- | [<- | [<- | [<- | []]]]]; rewrite Hfalsy;
    cbn [negb orb]; rewrite ?orb_true_r; reflexivity.
Qed.

Lemma signup_missing_field_witness :
  dispatch (signup Plain.hashpw []
              (VDict [("username", VStr "dave"); ("password", VStr "");
                      ("name", VStr "Dave"); ("type", VStr "Teacher")]))
    empty_store =
  (empty_store,
   Reply (Msg "All fields (username, password, name, type) are required.", 400)).
Proof.
  apply (signup_missing_field Plain.hashpw [] _ "password").
  - simpl. auto.
  - right. exists (VStr ""). split; reflexivity.
Defined.

(** X2.  A [signup] answered 201 appends one user and leaves the others as
    they were.  The stored password is the hash of the UTF-8 bytes of the
    password sent.  Student details are stored exactly when the type is
    equal to "Student": then each of class, registerNumber, mobileNumber
    and address is the value sent, or the empty string; for any other type
    the details sent are dropped. *)
Theorem signup_student_details :
  forall (hashpw : bytes -> bytes -> bytes) (salt : bytes)
         (d : list (string * pyval)) (db db' : store) (b : body),
    signup hashpw salt (VDict d) db = Ret (db', (b, 201)) ->
    exists (new : user) (user_type : pyval) (password : string),
      users db' = users db ++ [new] /\
      assoc "type" d = Some user_type /\ u_type new = user_type /\
      assoc "password" d = Some (VStr password) /\
      u_password new = hashpw (list_byte_of_string password) salt /\
      (py_eq user_type (VStr "Student") = false -> u_details new = None) /\
      (py_eq user_type (VStr "Student") = true ->
       exists details,
         u_details new = Some details /\
         sd_class details =
           match assoc "class" d with Some v => v | None => VStr "" end /\
         sd_registerNumber details =
           match assoc "registerNumber" d with
           | Some v => v | None => VStr "" end /\
         sd_mobileNumber details =
           match assoc "mobileNumber" d with
           | Some v => v | None => VStr "" end /\
         sd_address details =
           match assoc "address" d with Some v => v | None => VStr "" end).
Proof.
  intros hashpw salt d db db' b Hsignup.
  apply signup_created_user in Hsignup.
  destruct Hsignup as
    (username & name & user_type & password & _ & _ & Hp & _ & _ & Ht & _ & ->).
  eexists _, user_type, password. cbn [users set_users].
  split; [reflexivity|]. split; [exact Ht|]. split; [reflexivity|].
  split; [exact Hp|]. split; [reflexivity|].
  cbn [u_details]. split; intros ->; [reflexivity|].
  eexists. repeat split.
Qed.

Lemma signup_student_details_witness :
  exists (new : user) (user_type : pyval) (password : string),
    users bob_store = users empty_store ++ [new] /\
    assoc "type" bob_signup = Some user_type /\ u_type new = user_type /\
    assoc "password" bob_signup = Some (VStr password) /\
    u_password new = Plain.hashpw (list_byte_of_string password) [] /\
    (py_eq user_type (VStr "Student") = false -> u_details new = None) /\
    (py_eq user_type (VStr "Student") = true ->
     exists details,
       u_details new = Some details /\
       sd_class details =
         match assoc "class" bob_signup with
         | Some v => v | None => VStr "" end /\
       sd_registerNumber details =
         match assoc "registerNumber" bob_signup with
         | Some v => v | None => VStr "" end /\
       sd_mobileNumber details =
         match assoc "mobileNumber" bob_signup with
         | Some v => v | None => VStr "" end /\
       sd_address details =
         match assoc "address" bob_signup with
         | Some v => v | None => VStr "" end).
Proof.
  apply (signup_student_details Plain.hashpw [] bob_signup empty_store
           bob_store (Msg "User created successfully!")).
  reflexivity.
Defined.



(** X4.  A user signed up with a type that is a list containing "Student"
    is stored without student details, since the type is not equal to
    "Student"; yet the filter [{"type": "Student"}] of [get_students] and
    [mark_attendance] matches the stored user, an array field matching a
    query value that is one of its elements. *)
Theorem signup_type_list_is_student_without_details :
  forall (hashpw : bytes -> bytes -> bytes) (salt : bytes)
         (d : list (string * pyval)) (l : list pyval) (db db' : store)
         (b : body),
    assoc "type" d = Some (VList l) -> In (VStr "Student") l ->
    signup hashpw salt (VDict d) db = Ret (db', (b, 201)) ->
    exists new,
      users db' = users db ++ [new] /\
      u_details new = None /\
      by_type (VStr "Student") new = true /\
      detail new sd_class = VStr "N/A".
Proof.
  intros hashpw salt d l db db' b Ht Hin Hsignup.
  apply signup_created_user in Hsignup.
  destruct Hsignup as
    (username & name & user_type & password & _ & _ & _ & _ & _ & Ht' & _ & ->).
  rewrite Ht in Ht'. injection Ht' as <-.
  eexists. cbn [users set_users]. split; [reflexivity|].
  cbn [u_details py_eq]. split; [reflexivity|]. split; [|reflexivity].
  unfold by_type, mongo_match. cbn [u_type bson_eq orb].
  apply existsb_exists. exists (VStr "Student"). split; [exact Hin|].
  reflexivity.
Qed.

Lemma signup_type_list_is_student_without_details_witness :
  exists new,
    users (set_users empty_store
             [{| u_username := VStr "carol";
                 u_password := list_byte_of_string "pw";
                 u_name := VStr "Carol";
                 u_type := VList [VStr "Student"; VStr "Monitor"];
                 u_details := None |}])
    = users empty_store ++ [new] /\
    u_details new = None /\
    by_type (VStr "Student") new = true /\
    detail new sd_class = VStr "N/A".
Proof.
  apply (signup_type_list_is_student_without_details Plain.hashpw []
           carol_signup [VStr "Student"; VStr "Monitor"] empty_store _
           (Msg "User created successfully!")).
  - reflexivity.
  - simpl. auto.
  - reflexivity.
Defined.

(** ** Login and tokens *)

Lemma login_cases (checkpw : bytes -> bytes -> bool) (now : Z) (data : pyval)
  (db db' : store) (b : body) (s : Z) :
  login checkpw now data db = Ret (db', (b, s)) ->
  db' = db /\
  ((s = 400 /\ b = Msg "Username and password are required.") \/
   (s = 401 /\ b = Msg "Invalid credentials") \/
   (s = 200 /\
    exists (username : pyval) (password : string) (user : user),
      dict_get data "username" = Ret username /\ truthy username = true /\
      dict_get data "password" = Ret (VStr password) /\
      find_one (by_username username) (users db) = Some user /\
      checkpw (list_byte_of_string password) (u_password user) = true /\
      b = Login {| sub := username; exp := now + 86400 |}
            (u_type user) (u_username user))).
Proof.
  unfold login. destruct data; try discriminate.
  unfold dict_get, dict_get_default. cbn [bind].
  set (username := match assoc "username" d with Some v => v | None => VNone end).
  set (password := match assoc "password" d with Some v => v | None => VNone end).
  destruct (truthy username) eqn:Hu; cbn [negb orb];
    [|intros [= <- <- <-]; auto].
  destruct (truthy password) eqn:Hp; cbn [negb orb];
    [|intros [= <- <- <-]; auto].
  destruct (find_one (by_username username) (users db)) as [user|] eqn:Hfind;
    [|intros [= <- <- <-]; auto].
  destruct password as [| | | |password| |]; try discriminate.
  cbn [str_encode].
  destruct (has_surrogate password); [discriminate|]. cbn [bind].
  destruct (checkpw (list_byte_of_string password) (u_password user)) eqn:Hc;
    intros [= <- <- <-]; split; try reflexivity; [|auto].
  right. right. split; [reflexivity|].
  exists username, password, user. repeat split; assumption.
Qed.



(** ** What each view writes *)

Lemma jwt_required_cases (now : Z) (auth : authorization)
  (view : pyval -> store -> py (store * reply)) (db db' : store) (rep : reply) :
  jwt_required now auth view db = Ret (db', rep) ->
  (db' = db /\ snd rep = 401) \/
  (exists t, auth = Bearer t /\ now < exp t /\ view (sub t) db = Ret (db', rep)).
Proof.
  unfold jwt_required. destruct auth as [|t].
  - intros [= <- <-]. now left.
  - destruct (exp t <=? now) eqn:Hexp.
    + intros [= <- <-]. now left.
    + intros Hview. right. exists t. repeat split; [lia | exact Hview].
Qed.

Lemma create_quiz_cases (data current_user : pyval) (db db' : store)
  (b : body) (s : Z) :
  create_quiz data current_user db = Ret (db', (b, s)) ->
  (s = 400 /\ db' = db) \/
  (s = 201 /\
   exists (question options correctAnswer answer : pyval) (k : Z),
     dict_get data "question" = Ret question /\
     dict_get data "options" = Ret options /\
     dict_get data "correctAnswer" = Ret correctAnswer /\
     py_int correctAnswer = Ret k /\ 1 <= k <= 4 /\
     py_getitem options (k - 1) = Ret answer /\
     db' = set_quizzes db
             (quizzes db ++ [{| q_question := question;
                                q_options := options;
                                q_correctAnswer := answer |}])).
Proof.
  unfold create_quiz. destruct data; try discriminate.
  unfold dict_get, dict_get_default. cbn [bind].
  set (question := match assoc "question" d with Some v => v | None => VNone end).
  set (options := match assoc "options" d with Some v => v | None => VNone end).
  set (correctAnswer :=
         match assoc "correctAnswer" d with Some v => v | None => VNone end).
  destruct (negb (truthy question) || negb (truthy options)
            || negb (truthy correctAnswer));
    [intros [= <- <- <-]; now left|].
  destruct (py_int correctAnswer) as [k|e] eqn:Hint.
  2:{ destruct e; try discriminate. intros [= <- <- <-]. now left. }
  destruct ((1 <=? k) && (k <=? 4)) eqn:Hrange; cbn [negb];
    [|intros [= <- <- <-]; now left].
  destruct (py_getitem options (k - 1)) as [answer|e] eqn:Hitem;
    [|discriminate].
  cbn [bind].
  destruct (insert_one _ _ _) as [stored|e] eqn:Hins; [|discriminate].
  apply insert_one_Ret in Hins. destruct Hins as [-> _].
  cbn [bind]. intros [= <- <- <-]. right. split; [reflexivity|].
  exists question, options, correctAnswer, answer, k.
  apply andb_true_iff in Hrange. destruct Hrange as [H1 H4].
  apply Z.leb_le in H1, H4. repeat split; try assumption; reflexivity.
Qed.

Lemma save_quiz_result_cases (data current_user : pyval) (db db' : store)
  (b : body) (s : Z) :
  save_quiz_result data current_user db = Ret (db', (b, s)) ->
  (s = 400 /\ db' = db) \/
  (s = 201 /\
   exists student_username percentage,
     dict_get data "studentUsername" = Ret student_username /\
     truthy student_username = true /\
     dict_get data "percentage" = Ret percentage /\
     truthy percentage = true /\
     db' = set_quiz_results db
             (quiz_results db ++
                [{| r_studentUsername := student_username;
                    r_percentage := percentage |}])).
Proof.
  unfold save_quiz_result. destruct data; try discriminate.
  unfold dict_get, dict_get_default. cbn [bind].
  set (su := match assoc "studentUsername" d with Some v => v | None => VNone end).
  set (pct := match assoc "percentage" d with Some v => v | None => VNone end).
  destruct (truthy su) eqn:Hsu; cbn [negb orb];
    [|intros [= <- <- <-]; now left].
  destruct (truthy pct) eqn:Hpct; cbn [negb orb];
    [|intros [= <- <- <-]; now left].
  destruct (insert_one _ _ _) as [stored|e] eqn:Hins; [|discriminate].
  apply insert_one_Ret in Hins. destruct Hins as [-> _]. cbn [bind].
  intros [= <- <- <-]. right. split; [reflexivity|].
  exists su, pct. repeat split; assumption.
Qed.

Lemma upload_study_material_cases (data : pyval) (db db' : store)
  (b : body) (s : Z) :
  upload_study_material data db = Ret (db', (b, s)) ->
  (s = 400 /\ db' = db) \/
  (s = 201 /\
   exists name file,
     dict_get data "name" = Ret name /\ truthy name = true /\
     dict_get data "file" = Ret file /\ truthy file = true /\
     db' = set_study_materials db
             (study_materials db ++ [{| m_name := name; m_file := file |}])).
Proof.
  unfold upload_study_material. destruct data; try discriminate.
  unfold dict_get, dict_get_default. cbn [bind].
  set (name := match assoc "name" d with Some v => v | None => VNone end).
  set (file := match assoc "file" d with Some v => v | None => VNone end).
  destruct (truthy name) eqn:Hname; cbn [negb orb];
    [|intros [= <- <- <-]; now left].
  destruct (truthy file) eqn:Hfile; cbn [negb orb];
    [|intros [= <- <- <-]; now left].
  destruct (insert_one _ _ _) as [stored|e] eqn:Hins; [|discriminate].
  apply insert_one_Ret in Hins. destruct Hins as [-> _]. cbn [bind].
  intros [= <- <- <-]. right. split; [reflexivity|].
  exists name, file. repeat split; assumption.
Qed.

Lemma mark_attendance_cases (data username : pyval) (db db' : store)
  (b : body) (s : Z) :
  mark_attendance data username db = Ret (db', (b, s)) ->
  ((s = 400 \/ s = 404) /\ db' = db) \/
  (s = 200 /\
   exists (c : pyval) (student : user),
     dict_get data "class_number" = Ret c /\ truthy c = true /\
     find_one (by_username_and_type username (VStr "Student")) (users db)
     = Some student /\
     py_in c (marked_sessions db username) = false /\
     b = MsgClass "Attendance for Class " c " marked." /\
     ((exists a,
          find_one (attendance_of username) (attendance db) = Some a /\
          db' = set_attendance db
                  (updated (attendance_of username)
                     (fun a0 => {| a_username := a_username a0;
                                   a_attendance := a_attendance a ++ [c] |})
                     (attendance db))) \/
      (find_one (attendance_of username) (attendance db) = None /\
       db' = set_attendance db
               (attendance db ++ [{| a_username := username;
                                     a_attendance := [c] |}])))).
Proof.
  unfold mark_attendance. destruct data; try discriminate.
  unfold dict_get, dict_get_default. cbn [bind].
  set (c := match assoc "class_number" d with Some v => v | None => VNone end).
  destruct (truthy c) eqn:Hc; cbn [negb];
    [|intros [= <- <- <-]; left; auto].
  destruct (find_one (by_username_and_type username (VStr "Student")) (users db))
    as [student|] eqn:Hstudent; [|intros [= <- <- <-]; left; auto].
  unfold marked_sessions.
  destruct (find_one (attendance_of username) (attendance db)) as [a|] eqn:Ha.
  - destruct (py_in c (a_attendance a)) eqn:Hin;
      [intros [= <- <- <-]; left; auto|].
    destruct (update_one _ _ _ _) as [stored|e] eqn:Hupd; [|discriminate].
    apply update_one_Ret in Hupd. destruct Hupd as [-> _]. cbn [bind].
    intros [= <- <- <-].
    right. split; [reflexivity|]. exists c, student.
    repeat split; try assumption. left. exists a. now split.
  - destruct (insert_one _ _ _) as [stored|e] eqn:Hins; [|discriminate].
    apply insert_one_Ret in Hins. destruct Hins as [-> _]. cbn [bind].
    intros [= <- <- <-]. right. split; [reflexivity|]. exists c, student.
    repeat split; try assumption. right. now split.
Qed.

Lemma prefix_of_refl {A : Type} (l : list A) : prefix_of l l.
Proof. exists []. now rewrite app_nil_r. Qed.

Lemma prefix_of_app {A : Type} (l rest : list A) : prefix_of l (l ++ rest).
Proof. now exists rest. Qed.

Lemma prefix_of_trans {A : Type} (l1 l2 l3 : list A) :
  prefix_of l1 l2 -> prefix_of l2 l3 -> prefix_of l1 l3.
Proof.
  intros [r1 ->] [r2 ->]. exists (r1 ++ r2). now rewrite app_assoc.
Qed.

Lemma grows_refl (db : store) : grows db db.
Proof. repeat split; apply prefix_of_refl. Qed.

Lemma grows_trans (db1 db2 db3 : store) :
  grows db1 db2 -> grows db2 db3 -> grows db1 db3.
Proof.
  intros (H1 & H2 & H3 & H4) (K1 & K2 & K3 & K4).
  repeat split; eapply prefix_of_trans; eassumption.
Qed.

Lemma route_grows (hashpw : bytes -> bytes -> bytes)
  (checkpw : bytes -> bytes -> bool) (r : request) (db db' : store)
  (rep : reply) :
  route hashpw checkpw r db = Ret (db', rep) -> grows db db'.
Proof.
  destruct rep as [b s]. destruct r; cbn [route]; intros H.
  - apply signup_cases in H.
    destruct H as [[-> _] | (? & ? & ? & ? & ? & H)]; [apply grows_refl|].
    destruct H as (_ & _ & _ & _ & _ & _ & _ & _ & _ & -> & _).
    repeat split; cbn; first [apply prefix_of_app | apply prefix_of_refl].
  - apply login_cases in H. destruct H as [-> _]. apply grows_refl.
  - apply jwt_required_cases in H.
    destruct H as [[-> _] | (t & _ & _ & H)]; [apply grows_refl|].
    apply mark_attendance_cases in H.
    destruct H as [[_ ->] | (_ & c & student & _ & _ & _ & _ & _ & H)];
      [apply grows_refl|].
    destruct H as [(a & _ & ->) | (_ & ->)];
      repeat split; cbn; apply prefix_of_refl.
  - apply jwt_required_cases in H.
    destruct H as [[-> _] | (t & _ & _ & H)]; [apply grows_refl|].
    unfold get_students in H. injection H as <- _. apply grows_refl.
  - apply jwt_required_cases in H.
    destruct H as [[-> _] | (t & _ & _ & H)]; [apply grows_refl|].
    apply create_quiz_cases in H.
    destruct H as [[_ ->] | (_ & ? & ? & ? & ? & ? & H)]; [apply grows_refl|].
    destruct H as (_ & _ & _ & _ & _ & _ & ->).
    repeat split; cbn; first [apply prefix_of_app | apply prefix_of_refl].
  - apply jwt_required_cases in H.
    destruct H as [[-> _] | (t & _ & _ & H)]; [apply grows_refl|].
    apply save_quiz_result_cases in H.
    destruct H as [[_ ->] | (_ & ? & ? & _ & _ & _ & _ & ->)];
      [apply grows_refl|].
    repeat split; cbn; first [apply prefix_of_app | apply prefix_of_refl].
  - apply upload_study_material_cases in H.
    destruct H as [[_ ->] | (_ & ? & ? & _ & _ & _ & _ & ->)];
      [apply grows_refl|].
    repeat split; cbn; first [apply prefix_of_app | apply prefix_of_refl].
  - unfold save_timetable in H.
    destruct (negb (truthy data)); [injection H as <- _; apply grows_refl|].
    destruct (find_one _ _);
      [destruct (replace_one _ _) | destruct (insert_document _ _ _)];
      try discriminate H; cbn [bind] in H; injection H as <- _;
      repeat split; cbn; apply prefix_of_refl.
Qed.

(** X7.  Users, quizzes, quiz results and study materials are never
    removed or rewritten: whatever requests the server handles, each of
    these collections afterwards begins with what it held before. *)
Theorem collections_only_grow :
  forall (hashpw : bytes -> bytes -> bytes) (checkpw : bytes -> bytes -> bool)
         (rs : list request) (db : store),
    prefix_of (users db) (users (serve hashpw checkpw rs db)) /\
    prefix_of (quizzes db) (quizzes (serve hashpw checkpw rs db)) /\
    prefix_of (quiz_results db) (quiz_results (serve hashpw checkpw rs db)) /\
    prefix_of (study_materials db)
      (study_materials (serve hashpw checkpw rs db)).
Proof.
  intros hashpw checkpw rs.
  change (forall db, grows db (serve hashpw checkpw rs db)).
  unfold serve. induction rs as [|r rs IH]; intros db; simpl.
  - apply grows_refl.
  - eapply grows_trans; [|apply IH].
    unfold handle, dispatch.
    destruct (route hashpw checkpw r db) as [[db' rep]|e] eqn:E.
    + cbn [fst]. eapply route_grows. exact E.
    + apply grows_refl.
Qed.

(** ** Attendance records *)

Lemma find_one_update_one_other {A : Type} (p q : A -> bool) (f : A -> A)
  (coll : list A) :
  (forall x, p (f x) = p x) ->
  (forall x, In x coll -> q x = true -> p x = false) ->
  find_one p (updated q f coll) = find_one p coll.
Proof.
  intros Hf. unfold find_one.
  induction coll as [|d coll IH]; intros Hpq; [reflexivity|].
  simpl. destruct (q d) eqn:Hq; simpl.
  - rewrite Hf, (Hpq d (or_introl eq_refl) Hq). reflexivity.
  - destruct (p d); [reflexivity|].
    apply IH. intros x Hx. apply Hpq. now right.
Qed.

Lemma in_update_one {A : Type} (q : A -> bool) (f : A -> A) (coll : list A)
  (y : A) :
  In y (updated q f coll) -> In y coll \/ exists x, In x coll /\ y = f x.
Proof.
  induction coll as [|d coll IH]; simpl; [tauto|].
  destruct (q d); simpl.
  - intros [<- | Hy]; [right; exists d; auto | auto].
  - intros [<- | Hy]; [auto|].
    destruct (IH Hy) as [H | (x & Hx & ->)]; [auto|].
    right. exists x. auto.
Qed.

(** After a [mark_attendance] answered 200 the record that the views find
    for the user holds the sessions marked before, then the new one. *)
Lemma mark_attendance_record (data : pyval) (u : string) (db db' : store)
  (b : body) :
  mark_attendance data (VStr u) db = Ret (db', (b, 200)) ->
  exists c a',
    dict_get data "class_number" = Ret c /\ truthy c = true /\
    b = MsgClass "Attendance for Class " c " marked." /\
    users db' = users db /\
    find_one (attendance_of (VStr u)) (attendance db') = Some a' /\
    a_attendance a' = marked_sessions db (VStr u) ++ [c].
Proof.
  intros Hmark. apply mark_attendance_cases in Hmark.
  destruct Hmark as [[[H | H] _] | (_ & c & student & Hc & Hct & _ & _ & Hb & H)];
    try discriminate.
  unfold marked_sessions.
  destruct H as [(a & Ha & ->) | (Ha & ->)]; rewrite Ha;
    cbn [users attendance set_attendance].
  - eexists c, _. repeat split; try assumption.
    + apply find_one_update_one; [exact Ha|].
      apply find_some in Ha. exact (proj2 Ha).
    + reflexivity.
  - exists c, {| a_username := VStr u; a_attendance := [c] |}.
    repeat split; try assumption.
    change (attendance db ++ [{| a_username := VStr u; a_attendance := [c] |}])
      with (inserted {| a_username := VStr u; a_attendance := [c] |}
              (attendance db)).
    rewrite find_one_insert_one, Ha.
    unfold attendance_of. cbn [a_username].
    now rewrite mongo_match_str, String.eqb_refl.
Qed.

(** X8.  [get_attendance] answers 404 with an empty list while the user has
    no attendance record; after a [mark_attendance] answered 200 for the
    user it answers 200 with the sessions marked before followed by the
    class number just marked. *)
Theorem mark_then_get_attendance :
  forall (data : pyval) (u : string) (db db' : store) (b : body),
    mark_attendance data (VStr u) db = Ret (db', (b, 200)) ->
    (find_one (attendance_of (VStr u)) (attendance db) = None ->
     get_attendance (VStr u) db =
     Ret (db, (Json (VDict [("attendance", VList [])]), 404)))
    /\
    exists c,
      dict_get data "class_number" = Ret c /\
      get_attendance (VStr u) db' =
      Ret (db', (Json (VDict [("attendance",
                                VList (marked_sessions db (VStr u) ++ [c]))]),
                 200)).
Proof.
  intros data u db db' b Hmark. split.
  - intros Hnone. unfold get_attendance. now rewrite Hnone.
  - apply mark_attendance_record in Hmark.
    destruct Hmark as (c & a' & Hc & _ & _ & _ & Hfind & Hlist).
    exists c. split; [exact Hc|].
    unfold get_attendance. now rewrite Hfind, Hlist.
Qed.

Lemma mark_then_get_attendance_witness :
  (find_one (attendance_of (VStr "bob")) (attendance bob_attended) = None ->
   get_attendance (VStr "bob") bob_attended =
   Ret (bob_attended, (Json (VDict [("attendance", VList [])]), 404)))
  /\
  exists c,
    dict_get (VDict [("class_number", VInt 7)]) "class_number" = Ret c /\
    get_attendance (VStr "bob")
      (set_attendance bob_store
         [{| a_username := VStr "bob";
             a_attendance := [VInt 1; VInt 2; VStr "lab"; VInt 7] |}]) =
    Ret (set_attendance bob_store
           [{| a_username := VStr "bob";
               a_attendance := [VInt 1; VInt 2; VStr "lab"; VInt 7] |}],
         (Json (VDict [("attendance",
                         VList (marked_sessions bob_attended (VStr "bob")
                                ++ [c]))]), 200)).
Proof.
  apply (mark_then_get_attendance (VDict [("class_number", VInt 7)]) "bob"
           bob_attended _
           (MsgClass "Attendance for Class " (VInt 7) " marked.")).
  reflexivity.
Defined.

(** X9.  Each [mark_attendance] answered 200 raises the percentage that
    [get_students] reports for the student by ten points: with [n] sessions
    marked before (fewer than a thousand), the entry of the student shows
    the double 10 (n + 1) afterwards.  Nothing caps it at 100. *)
Theorem mark_raises_percentage :
  forall (data : pyval) (u : string) (student : user) (db db' : store)
         (b : body),
    mark_attendance data (VStr u) db = Ret (db', (b, 200)) ->
    u_username student = VStr u ->
    (List.length (marked_sessions db (VStr u)) < 1000)%nat ->
    dict_get (student_data db' student) "attendance" =
    Ret (VFloat (Float64.of_Z
                   (10 * (Z.of_nat (List.length (marked_sessions db (VStr u)))
                          + 1)))).
Proof.
  intros data u student db db' b Hmark Hname Hbound.
  apply mark_attendance_record in Hmark.
  destruct Hmark as (c & a' & _ & _ & _ & _ & Hfind & Hlist).
  unfold dict_get, dict_get_default, student_data, attendance_percentage.
  rewrite Hname, Hfind, Hlist. cbn [assoc String.eqb Ascii.eqb Bool.eqb].
  cbn [num_val py_round2]. rewrite length_app. cbn [List.length].
  rewrite percentage_exact by lia.
  do 3 f_equal. lia.
Qed.

Lemma mark_raises_percentage_witness :
  dict_get (student_data
              (set_attendance bob_store
                 [{| a_username := VStr "bob";
                     a_attendance := [VInt 1; VInt 2; VStr "lab"; VInt 7] |}])
              bob) "attendance" =
  Ret (VFloat (Float64.of_Z
                 (10 * (Z.of_nat (List.length
                                    (marked_sessions bob_attended (VStr "bob")))
                        + 1)))).
Proof.
  apply (mark_raises_percentage (VDict [("class_number", VInt 7)]) "bob" bob
           bob_attended _
           (MsgClass "Attendance for Class " (VInt 7) " marked.")).
  - reflexivity.
  - reflexivity.
  - simpl. lia.
Defined.

(** X10.  In a store whose attendance records all carry a string as
    username, a [mark_attendance] for one user leaves the marked sessions
    of every other user as they were, and the records still all carry a
    string as username. *)
Theorem mark_attendance_leaves_others :
  forall (data : pyval) (u u' : string) (db db' : store) (rep : reply),
    (forall a, In a (attendance db) -> exists s, a_username a = VStr s) ->
    u' <> u ->
    mark_attendance data (VStr u) db = Ret (db', rep) ->
    marked_sessions db' (VStr u') = marked_sessions db (VStr u') /\
    (forall a, In a (attendance db') -> exists s, a_username a = VStr s).
Proof.
  intros data u u' db db' [b s] Hstr Hneq Hmark.
  apply mark_attendance_cases in Hmark.
  destruct Hmark as [[_ ->] | (_ & c & student & _ & _ & _ & _ & _ & H)];
    [now split|].
  unfold marked_sessions.
  destruct H as [(a & Ha & ->) | (Ha & ->)];
    cbn [attendance set_attendance]; split.
  - rewrite find_one_update_one_other; [reflexivity | reflexivity |].
    intros x Hx Hq. destruct (Hstr x Hx) as [sx Hsx].
    unfold attendance_of in Hq |- *. rewrite Hsx in Hq |- *.
    rewrite mongo_match_str in Hq |- *.
    apply String.eqb_eq in Hq. subst sx.
    now apply String.eqb_neq.
  - intros y Hy. apply in_update_one in Hy.
    destruct Hy as [Hy | (x & Hx & ->)]; [now apply Hstr|].
    cbn [a_username]. now apply Hstr.
  - change (attendance db ++ [{| a_username := VStr u; a_attendance := [c] |}])
      with (inserted {| a_username := VStr u; a_attendance := [c] |}
              (attendance db)).
    rewrite find_one_insert_one.
    destruct (find_one (attendance_of (VStr u')) (attendance db));
      [reflexivity|].
    unfold attendance_of. cbn [a_username]. rewrite mongo_match_str.
    now rewrite (proj2 (String.eqb_neq u' u) Hneq).
  - intros y Hy. apply in_app_iff in Hy.
    destruct Hy as [Hy | [<- | []]]; [now apply Hstr|].
    now exists u.
Qed.

Lemma mark_attendance_leaves_others_witness :
  marked_sessions
    (set_attendance class_store
       [{| a_username := VStr "bob";
           a_attendance := [VInt 1; VInt 2; VStr "lab"] |};
        {| a_username := VStr "erin"; a_attendance := [VInt 5] |}])
    (VStr "bob")
  = marked_sessions class_store (VStr "bob") /\
  (forall a,
      In a (attendance
              (set_attendance class_store
                 [{| a_username := VStr "bob";
                     a_attendance := [VInt 1; VInt 2; VStr "lab"] |};
                  {| a_username := VStr "erin"; a_attendance := [VInt 5] |}])) ->
      exists s, a_username a = VStr s).
Proof.
  apply (mark_attendance_leaves_others (VDict [("class_number", VInt 5)])
           "erin" "bob" class_store _
           (MsgClass "Attendance for Class " (VInt 5) " marked.", 200)).
  - intros a [<- | []]. now exists "bob".
  - discriminate.
  - reflexivity.
Defined.

(** ** From signup to the other views *)

Lemma find_one_all_false {A : Type} (p : A -> bool) (coll : list A) :
  (forall x, In x coll -> p x = false) -> find_one p coll = None.
Proof.
  unfold find_one. induction coll as [|d coll IH]; intros H; [reflexivity|].
  simpl. rewrite (H d (or_introl eq_refl)). apply IH.
  intros x Hx. apply H. now right.
Qed.

Lemma no_username_no_student (username type : pyval) (l : list user) :
  find_one (by_username username) l = None ->
  find_one (by_username_and_type username type) l = None.
Proof.
  intros Hnone. apply find_one_all_false. intros x Hx.
  unfold by_username_and_type.
  pose proof (find_none _ _ Hnone x Hx) as Hx'.
  unfold by_username in Hx'. now rewrite Hx'.
Qed.

Lemma mark_attendance_marks (d : list (string * pyval)) (username c : pyval)
  (student : user) (db : store) :
  assoc "class_number" d = Some c -> truthy c = true ->
  find_one (by_username_and_type username (VStr "Student")) (users db)
  = Some student ->
  py_in c (marked_sessions db username) = false ->
  bson_encode username = Ret tt ->
  bson_encode (VList (marked_sessions db username ++ [c])) = Ret tt ->
  exists db',
    mark_attendance (VDict d) username db =
    Ret (db', (MsgClass "Attendance for Class " c " marked.", 200)).
Proof.
  intros Hc Hct Hstudent Hnew Huser Hlist. unfold mark_attendance.
  rewrite (dict_get_assoc _ _ _ Hc). cbn [bind].
  rewrite Hct, Hstudent. cbn [negb].
  unfold marked_sessions in Hnew, Hlist.
  destruct (find_one (attendance_of username) (attendance db)) as [a|].
  - rewrite Hnew.
    rewrite update_one_encoded by (intros v [<- | []]; exact Hlist).
    cbn [bind]. eauto.
  - rewrite insert_one_encoded
      by (intros v [<- | [<- | []]]; assumption).
    cbn [bind]. eauto.
Qed.

Lemma signup_password_encodes (hashpw : bytes -> bytes -> bytes)
  (salt : bytes) (d : list (string * pyval)) (p : string) (db db' : store)
  (b : body) :
  assoc "password" d = Some (VStr p) ->
  signup hashpw salt (VDict d) db = Ret (db', (b, 201)) ->
  has_surrogate p = false.
Proof.
  intros Hp Hsignup. apply signup_cases in Hsignup.
  destruct Hsignup as [[_ H] | (username & name & user_type & password &
                                details & H)]; [discriminate|].
  destruct H as (_ & _ & Hp' & _ & _ & _ & _ & _ & _ & _ & _ & Hs).
  rewrite (dict_get_assoc _ _ _ Hp) in Hp'. now injection Hp' as <-.
Qed.

(** X11.  A user signed up with type "Student", whose password bcrypt
    verifies against the hash it made of it, can log in with the same
    username and password, and with the token obtained, from the login until
    it expires, mark a truthy class number not yet marked for that username,
    when the database can store the username and the sessions with the class
    number added: the reply is 200 and the class number is appended to the
    sessions of the user. *)
Theorem signed_up_student_can_mark :
  forall (hashpw : bytes -> bytes -> bytes) (checkpw : bytes -> bytes -> bool)
         (salt : bytes) (now t : Z) (d : list (string * pyval))
         (u p : string) (c : pyval) (db db' : store) (b : body),
    assoc "username" d = Some (VStr u) ->
    assoc "password" d = Some (VStr p) ->
    assoc "type" d = Some (VStr "Student") ->
    signup hashpw salt (VDict d) db = Ret (db', (b, 201)) ->
    checkpw (list_byte_of_string p) (hashpw (list_byte_of_string p) salt)
    = true ->
    truthy c = true ->
    py_in c (marked_sessions db (VStr u)) = false ->
    storable (VStr u) = true ->
    storable (VList (marked_sessions db (VStr u) ++ [c])) = true ->
    now <= t < now + 86400 ->
    exists tok db'',
      login checkpw now (credentials u p) db' =
      Ret (db', (Login tok (VStr "Student") (VStr u), 200)) /\
      handle hashpw checkpw
        (POST_mark_attendance t (Bearer tok) (VDict [("class_number", c)])) db'
      = (db'', Reply (MsgClass "Attendance for Class " c " marked.", 200)) /\
      marked_sessions db'' (VStr u) = marked_sessions db (VStr u) ++ [c].
Proof.
  intros hashpw checkpw salt now t d u p c db db' b
    Hu Hp Ht Hsignup Hcheck Hct Hnew Huser Hlist Htime.
  pose proof (signup_password_encodes _ _ _ _ _ _ _ Hp Hsignup) as Henc.
  apply storable_encodes in Huser, Hlist.
  apply signup_created_user in Hsignup.
  destruct Hsignup as
    (username & name & user_type & password &
     Hu' & Hut & Hp' & Hpne & _ & Ht' & Hfresh & ->).
  rewrite Hu in Hu'. injection Hu' as <-.
  rewrite Hp in Hp'. injection Hp' as <-.
  rewrite Ht in Ht'. injection Ht' as <-.
  cbn [py_eq String.eqb Ascii.eqb Bool.eqb].
  set (new := {| u_username := VStr u;
                 u_password := hashpw (list_byte_of_string p) salt;
                 u_name := name; u_type := VStr "Student";
                 u_details := _ |}).
  set (db1 := set_users db (users db ++ [new])).
  assert (Hfound : find_one (by_username (VStr u)) (users db1) = Some new).
  { unfold db1. cbn [users set_users].
    change (users db ++ [new]) with (inserted new (users db)).
    rewrite find_one_insert_one, Hfresh.
    unfold by_username. cbn [u_username new].
    now rewrite mongo_match_str, String.eqb_refl. }
  assert (Hstudent :
           find_one (by_username_and_type (VStr u) (VStr "Student")) (users db1)
           = Some new).
  { unfold db1. cbn [users set_users].
    change (users db ++ [new]) with (inserted new (users db)).
    rewrite find_one_insert_one,
      (no_username_no_student _ (VStr "Student") _ Hfresh).
    unfold by_username_and_type. cbn [u_username u_type new].
    now rewrite !mongo_match_str, !String.eqb_refl. }
  assert (Hmarked : marked_sessions db1 (VStr u) = marked_sessions db (VStr u))
    by reflexivity.
  destruct (mark_attendance_marks [("class_number", c)] (VStr u) c new db1
              eq_refl Hct Hstudent) as [db'' Hmark];
    try assumption.
  exists {| sub := VStr u; exp := now + 86400 |}, db''. split; [|split].
  - unfold credentials.
    rewrite (login_right_password checkpw now _ (VStr u) p new db1);
      try reflexivity; try assumption.
  - unfold handle, dispatch, route, jwt_required. cbn [exp sub].
    assert ((now + 86400 <=? t) = false) as -> by (apply Z.leb_gt; lia).
    now rewrite Hmark.
  - apply mark_attendance_record in Hmark.
    destruct Hmark as (c' & a' & Hc' & _ & _ & _ & Hfind & Hlist').
    injection Hc' as <-.
    unfold marked_sessions at 1. rewrite Hfind, Hlist'. now rewrite Hmarked.
Qed.

Lemma signed_up_student_can_mark_witness :
  exists tok db'',
    login Plain.checkpw 100 (credentials "bob" "hunter2") bob_store =
    Ret (bob_store, (Login tok (VStr "Student") (VStr "bob"), 200)) /\
    handle Plain.hashpw Plain.checkpw
      (POST_mark_attendance 200 (Bearer tok) (VDict [("class_number", VInt 1)]))
      bob_store
    = (db'', Reply (MsgClass "Attendance for Class " (VInt 1) " marked.", 200)) /\
    marked_sessions db'' (VStr "bob") =
    marked_sessions empty_store (VStr "bob") ++ [VInt 1].
Proof.
  apply (signed_up_student_can_mark Plain.hashpw Plain.checkpw
           [] 100 200 bob_signup "bob" "hunter2" (VInt 1)
           empty_store bob_store (Msg "User created successfully!"));
    first [reflexivity | lia].
Defined.

(** X12.  A user signed up with a type that the filter
    [{"type": "Student"}] does not match, "Teacher" for one, cannot mark
    attendance: with the identity of that user and a truthy class number,
    [mark_attendance] answers the 404 "Student not found." and writes
    nothing. *)
Theorem signed_up_non_student_cannot_mark :
  forall (hashpw : bytes -> bytes -> bytes) (salt : bytes)
         (d : list (string * pyval)) (u : string) (user_type data c : pyval)
         (db db' : store) (b : body),
    assoc "username" d = Some (VStr u) ->
    assoc "type" d = Some user_type ->
    mongo_match (VStr "Student") user_type = false ->
    signup hashpw salt (VDict d) db = Ret (db', (b, 201)) ->
    dict_get data "class_number" = Ret c -> truthy c = true ->
    mark_attendance data (VStr u) db' =
    Ret (db', (Msg "Student not found.", 404)).
Proof.
  intros hashpw salt d u user_type data c db db' b Hu Ht Hno Hsignup Hc Hct.
  apply signup_created_user in Hsignup.
  destruct Hsignup as
    (username & name & user_type' & password &
     Hu' & _ & _ & _ & _ & Ht' & Hfresh & ->).
  rewrite Hu in Hu'. injection Hu' as <-.
  rewrite Ht in Ht'. injection Ht' as <-.
  unfold mark_attendance. rewrite Hc. cbn [bind]. rewrite Hct. cbn [negb].
  cbn [users set_users].
  match goal with
  | |- context [find_one ?p (users db ++ [?new])] =>
      change (users db ++ [new]) with (inserted new (users db));
      rewrite (find_one_insert_one p (users db) new)
  end.
  rewrite (no_username_no_student _ (VStr "Student") _ Hfresh).
  unfold by_username_and_type at 1. cbn [u_username u_type].
  now rewrite Hno, andb_false_r.
Qed.

Lemma signed_up_non_student_cannot_mark_witness :
  mark_attendance (VDict [("class_number", VInt 1)]) (VStr "alice")
    (set_users empty_store [alice]) =
  Ret (set_users empty_store [alice], (Msg "Student not found.", 404)).
Proof.
  apply (signed_up_non_student_cannot_mark Plain.hashpw []
           [("username", VStr "alice"); ("password", VStr "secret");
            ("name", VStr "Alice"); ("type", VStr "Teacher")]
           "alice" (VStr "Teacher") _ (VInt 1) empty_store _
           (Msg "User created successfully!")); reflexivity.
Defined.

(** X13.  A user signed up with type "Student" for whom there is no
    attendance record appears at the end of the list of [get_students],
    after the entries listed before the signup: with the username, the name
    sent, attendance 0, and class, registerNumber and mobileNumber as sent
    or empty.  The address is stored but not listed. *)
Theorem signed_up_student_is_listed :
  forall (hashpw : bytes -> bytes -> bytes) (salt : bytes)
         (d : list (string * pyval)) (u : string) (current_user : pyval)
         (db db' : store) (b : body),
    assoc "username" d = Some (VStr u) ->
    assoc "type" d = Some (VStr "Student") ->
    find_one (attendance_of (VStr u)) (attendance db) = None ->
    signup hashpw salt (VDict d) db = Ret (db', (b, 201)) ->
    exists (name : pyval) (before : list pyval),
      assoc "name" d = Some name /\
      get_students current_user db = Ret (db, (Json (VList before), 200)) /\
      get_students current_user db' =
      Ret (db',
           (Json (VList
                    (before ++
                       [VDict
                          [ ("username", VStr u);
                            ("name", name);
                            ("attendance", VInt 0);
                            ("class",
                              match assoc "class" d with
                              | Some v => v | None => VStr "" end);
                            ("registerNumber",
                              match assoc "registerNumber" d with
                              | Some v => v | None => VStr "" end);
                            ("mobileNumber",
                              match assoc "mobileNumber" d with
                              | Some v => v | None => VStr "" end) ]])),
            200)).
Proof.
  intros hashpw salt d u current_user db db' b Hu Ht Hnone Hsignup.
  apply signup_created_user in Hsignup.
  destruct Hsignup as
    (username & name & user_type & password &
     Hu' & _ & _ & _ & Hn & Ht' & _ & ->).
  rewrite Hu in Hu'. injection Hu' as <-.
  rewrite Ht in Ht'. injection Ht' as <-.
  exists name, (map (student_data db) (find (by_type (VStr "Student")) (users db))).
  split; [exact Hn|]. split; [reflexivity|].
  match goal with
  | |- context [users db ++ [?x]] => set (new := x)
  end.
  assert (Hsame : forall x,
             student_data (set_users db (users db ++ [new])) x =
             student_data db x) by reflexivity.
  unfold get_students, find. cbn [users set_users].
  rewrite filter_app, map_app, (map_ext _ _ Hsame). cbn [List.filter].
  unfold by_type at 2. cbn [u_type new].
  rewrite mongo_match_str, String.eqb_refl. cbn [map]. rewrite Hsame.
  unfold student_data at 2, attendance_percentage.
  cbn [u_username new]. rewrite Hnone.
  reflexivity.
Qed.

Lemma signed_up_student_is_listed_witness :
  exists (name : pyval) (before : list pyval),
    assoc "name" bob_signup = Some name /\
    get_students (VStr "alice") empty_store =
    Ret (empty_store, (Json (VList before), 200)) /\
    get_students (VStr "alice") bob_store =
    Ret (bob_store,
         (Json (VList
                  (before ++
                     [VDict
                        [ ("username", VStr "bob");
                          ("name", name);
                          ("attendance", VInt 0);
                          ("class",
                            match assoc "class" bob_signup with
                            | Some v => v | None => VStr "" end);
                          ("registerNumber",
                            match assoc "registerNumber" bob_signup with
                            | Some v => v | None => VStr "" end);
                          ("mobileNumber",
                            match assoc "mobileNumber" bob_signup with
                            | Some v => v | None => VStr "" end) ]])),
          200)).
Proof.
  apply (signed_up_student_is_listed Plain.hashpw [] bob_signup "bob"
           (VStr "alice") empty_store bob_store
           (Msg "User created successfully!")); reflexivity.
Defined.

(** ** Quizzes and results *)

Lemma find_all {A : Type} (coll : list A) : find (fun _ => true) coll = coll.
Proof.
  unfold find. induction coll as [|x coll IH]; [reflexivity|].
  simpl. now rewrite IH.
Qed.

(** X14.  [create_quiz] writes only when it answers 201: a request that
    ends in an exception or in a 400 leaves the store as it was, and these
    are the only statuses of the view.  On 201 there is a [k] within 1..4
    such that [options[k - 1]] exists, and [get_quizzes] afterwards lists
    the quizzes it listed before followed by the new one, whose
    correctAnswer is that element of the options. *)
Theorem create_quiz_then_get_quizzes :
  forall (data current_user identity : pyval) (db : store),
    match dispatch (create_quiz data current_user) db with
    | (db', Unhandled _) => db' = db
    | (db', Reply (b, s)) =>
        (s = 400 /\ db' = db) \/
        (s = 201 /\
         exists (question options answer : pyval) (k : Z)
                (before : list pyval),
           dict_get data "question" = Ret question /\
           dict_get data "options" = Ret options /\
           1 <= k <= 4 /\
           py_getitem options (k - 1) = Ret answer /\
           get_quizzes identity db = Ret (db, (Json (VList before), 200)) /\
           get_quizzes identity db' =
           Ret (db', (Json (VList (before ++
                                     [VDict [ ("question", question);
                                              ("options", options);
                                              ("correctAnswer", answer) ]])),
                      200)))
    end.
Proof.
  intros data current_user identity db. unfold dispatch.
  destruct (create_quiz data current_user db) as [[db' [b s]]|e] eqn:Hcreate;
    [|reflexivity].
  apply create_quiz_cases in Hcreate.
  destruct Hcreate as [H | (-> & question & options & ca & answer & k & H)];
    [now left|].
  destruct H as (Hq & Ho & Hca & Hint & Hk & Hitem & ->).
  right. split; [reflexivity|].
  exists question, options, answer, k, (map quiz_entry (quizzes db)).
  repeat split; try assumption; try lia.
  - unfold get_quizzes. now rewrite find_all.
  - unfold get_quizzes. rewrite find_all. cbn [quizzes set_quizzes].
    now rewrite map_app.
Qed.

(** X16.  [save_quiz_result] checks neither the type nor the range of its
    fields: any truthy studentUsername and any truthy percentage that the
    database can store are accepted and stored as sent, and
    [get_quiz_results] afterwards lists the results it listed before
    followed by the new one. *)
Theorem save_quiz_result_then_get_quiz_results :
  forall (d : list (string * pyval)) (su pct current_user identity : pyval)
         (db : store),
    assoc "studentUsername" d = Some su -> truthy su = true ->
    assoc "percentage" d = Some pct -> truthy pct = true ->
    storable su = true -> storable pct = true ->
    exists (db' : store) (before : list pyval),
      save_quiz_result (VDict d) current_user db =
      Ret (db', (Msg "Quiz result saved successfully!", 201)) /\
      get_quiz_results identity db = Ret (db, (Json (VList before), 200)) /\
      get_quiz_results identity db' =
      Ret (db', (Json (VList (before ++
                                [VDict [ ("studentUsername", su);
                                         ("percentage", pct) ]])), 200)).
Proof.
  intros d su pct current_user identity db Hsu Hsut Hpct Hpctt Hs1 Hs2.
  apply storable_encodes in Hs1, Hs2.
  eexists _, (map result_entry (quiz_results db)).
  unfold save_quiz_result.
  rewrite (dict_get_assoc _ _ _ Hsu), (dict_get_assoc _ _ _ Hpct).
  cbn [bind]. rewrite Hsut, Hpctt. cbn [negb orb].
  rewrite insert_one_encoded by (intros v [<- | [<- | []]]; assumption).
  cbn [bind].
  split; [reflexivity|]. unfold get_quiz_results. rewrite !find_all.
  split; [reflexivity|].
  cbn [quiz_results set_quiz_results].
  now rewrite map_app.
Qed.

Lemma save_quiz_result_then_get_quiz_results_witness :
  exists (db' : store) (before : list pyval),
    save_quiz_result
      (VDict [("studentUsername", VList [VStr "bob"]);
              ("percentage", VInt (-150))])
      (VStr "alice") empty_store =
    Ret (db', (Msg "Quiz result saved successfully!", 201)) /\
    get_quiz_results (VStr "bob") empty_store =
    Ret (empty_store, (Json (VList before), 200)) /\
    get_quiz_results (VStr "bob") db' =
    Ret (db', (Json (VList (before ++
                              [VDict [ ("studentUsername", VList [VStr "bob"]);
                                       ("percentage", VInt (-150)) ]])), 200)).
Proof.
  apply (save_quiz_result_then_get_quiz_results
           [("studentUsername", VList [VStr "bob"]);
            ("percentage", VInt (-150))]);
    reflexivity.
Defined.

(** ** Payloads that are not objects *)

(** X17.  A JSON body that is not an object (null, a boolean, a number, a
    string or a list) has no [get]: [signup], [login], [mark_attendance],
    [create_quiz], [save_quiz_result] and [upload_study_material] all end in
    an unhandled [AttributeError], and the store is unchanged. *)
Theorem non_object_payload_unhandled :
  forall (hashpw : bytes -> bytes -> bytes) (checkpw : bytes -> bytes -> bool)
         (salt : bytes) (now : Z) (identity data : pyval) (db : store),
    (forall d, data <> VDict d) ->
    dispatch (signup hashpw salt data) db = (db, Unhandled AttributeError) /\
    dispatch (login checkpw now data) db = (db, Unhandled AttributeError) /\
    dispatch (mark_attendance data identity) db
    = (db, Unhandled AttributeError) /\
    dispatch (create_quiz data identity) db = (db, Unhandled AttributeError) /\
    dispatch (save_quiz_result data identity) db
    = (db, Unhandled AttributeError) /\
    dispatch (upload_study_material data) db = (db, Unhandled AttributeError).
Proof.
  intros hashpw checkpw salt now identity data db Hdata.
  destruct data; try (repeat split; reflexivity).
  now destruct (Hdata d).
Qed.

Lemma non_object_payload_unhandled_witness :
  dispatch (signup Plain.hashpw [] (VList [])) bob_store
  = (bob_store, Unhandled AttributeError) /\
  dispatch (login Plain.checkpw 0 (VList [])) bob_store
  = (bob_store, Unhandled AttributeError) /\
  dispatch (mark_attendance (VList []) (VStr "bob")) bob_store
  = (bob_store, Unhandled AttributeError) /\
  dispatch (create_quiz (VList []) (VStr "bob")) bob_store
  = (bob_store, Unhandled AttributeError) /\
  dispatch (save_quiz_result (VList []) (VStr "bob")) bob_store
  = (bob_store, Unhandled AttributeError) /\
  dispatch (upload_study_material (VList [])) bob_store
  = (bob_store, Unhandled AttributeError).
Proof.
  apply (non_object_payload_unhandled Plain.hashpw Plain.checkpw [] 0
           (VStr "bob") (VList []) bob_store).
  intros d. discriminate.
Defined.

(** ** The timetable, continued *)

(** X18.  [save_timetable] checks only that the payload is truthy.  A falsy
    payload, the empty object included, is answered 400 "No data provided";
    a truthy payload that is not an object (a non-empty list or string, a
    non-zero number, true) reaches the database driver, which accepts only
    a dict: the request ends in an unhandled [TypeError].  The store is
    unchanged in both cases. *)
Theorem save_timetable_payload_checks :
  forall (data : pyval) (db : store),
    (truthy data = false ->
     dispatch (save_timetable data) db =
     (db, Reply (Msg "No data provided", 400)))
    /\
    (truthy data = true -> (forall d, data <> VDict d) ->
     dispatch (save_timetable data) db = (db, Unhandled TypeError)).
Proof.
  intros data db. unfold dispatch, save_timetable. split.
  - now intros ->.
  - intros -> Hdata. cbn [negb].
    destruct (find_one (fun _ => true) (timetable db));
      destruct data; try reflexivity; now destruct (Hdata d).
Qed.

Lemma save_timetable_payload_checks_witness :
  dispatch (save_timetable (VDict [])) bob_store =
  (bob_store, Reply (Msg "No data provided", 400))
  /\
  dispatch (save_timetable (VList [VStr "monday"])) bob_store =
  (bob_store, Unhandled TypeError).
Proof.
  split.
  - apply (proj1 (save_timetable_payload_checks (VDict []) bob_store)).
    reflexivity.
  - apply (proj2 (save_timetable_payload_checks (VList [VStr "monday"])
                    bob_store)).
    + reflexivity.
    + intros d. discriminate.
Defined.

Lemma handle_keeps_timetable_id (hashpw : bytes -> bytes -> bytes)
  (checkpw : bytes -> bytes -> bool) (r : request) (db : store)
  (id : doc_id) (fields : list (string * pyval)) (rest : list timetable_doc) :
  timetable db = {| t_id := id; t_fields := fields |} :: rest ->
  exists fields',
    timetable (fst (handle hashpw checkpw r db)) =
    {| t_id := id; t_fields := fields' |} :: rest.
Proof.
  intros Hdb. unfold handle, dispatch.
  destruct (route hashpw checkpw r db) as [[db' rep]|e] eqn:E;
    [|now exists fields].
  cbn [fst]. destruct r.
  2-7: apply route_frame in E; destruct E as [_ E]; rewrite E;
       now exists fields.
  1: apply route_frame in E; rewrite E; now exists fields.
  cbn [route] in E. apply save_timetable_cases in E.
  destruct E as [[-> _] | [(d & id' & _ & Hempty & _)
                          | (d & old & rest' & _ & Hold & _ & ->)]].
  - now exists fields.
  - rewrite Hempty in Hdb. discriminate.
  - rewrite Hold in Hdb. injection Hdb as -> ->.
    now exists (without_id d).
Qed.

(** X19.  Once a timetable document is stored it is never deleted and its
    [_id] never changes: whatever requests the server then handles, the
    first timetable document keeps the [_id] it had, and the documents
    after it, if any, stay as they were. *)
Theorem timetable_keeps_its_id :
  forall (hashpw : bytes -> bytes -> bytes) (checkpw : bytes -> bytes -> bool)
         (rs : list request) (db : store) (old : timetable_doc)
         (rest : list timetable_doc),
    timetable db = old :: rest ->
    exists fields,
      timetable (serve hashpw checkpw rs db) =
      {| t_id := t_id old; t_fields := fields |} :: rest.
Proof.
  intros hashpw checkpw rs db [id fields] rest. cbn [t_id].
  unfold serve. revert db fields.
  induction rs as [|r rs IH]; intros db fields Hdb; simpl.
  - now exists fields.
  - destruct (handle_keeps_timetable_id hashpw checkpw r db id fields rest Hdb)
      as [fields' Hstep].
    now apply (IH _ fields').
Qed.

Lemma timetable_keeps_its_id_witness :
  exists fields,
    timetable
      (serve Plain.hashpw Plain.checkpw
         [POST_save_timetable (VDict [("monday", VStr "physics")]);
          POST_save_timetable (VDict [("_id", VInt 9)])]
         (set_timetable empty_store
            [{| t_id := ObjectId 0;
                t_fields := [("monday", VStr "maths")] |}] 1)) =
    [{| t_id := t_id {| t_id := ObjectId 0;
                        t_fields := [("monday", VStr "maths")] |};
        t_fields := fields |}].
Proof.
  apply (timetable_keeps_its_id Plain.hashpw Plain.checkpw).
  reflexivity.
Defined.

(** X20.  [get_timetable] answers 404 "No timetable found" while the
    collection is empty.  After a [save_timetable] that was accepted for a
    payload, the first stored document holds the fields of the payload other
    than [_id], and [get_timetable] answers 200 with that document: its
    [_id], as the JSON provider renders it, followed by those fields in the
    order of the payload. *)
Theorem save_then_get_timetable :
  forall (jsonify_oid : nat -> py pyval) (d : list (string * pyval))
         (db db' : store) (rep : reply),
    save_timetable (VDict d) db = Ret (db', rep) -> snd rep <> 400 ->
    (timetable db = [] ->
     get_timetable jsonify_oid db = Ret (db, (Msg "No timetable found", 404)))
    /\
    exists stored,
      find_one (fun _ => true) (timetable db') = Some stored /\
      t_fields stored = without_id d /\
      forall rendered,
        match t_id stored with
        | GivenId v => Ret v
        | ObjectId n => jsonify_oid n
        end = Ret rendered ->
        get_timetable jsonify_oid db' =
        Ret (db', (Json (VDict (("_id", rendered) :: without_id d)), 200)).
Proof.
  intros jsonify_oid d db db' [b s] Hsave Hok. split.
  - intros Hempty. unfold get_timetable. now rewrite Hempty.
  - apply save_timetable_cases in Hsave.
    destruct Hsave as [[_ H400] | [(d' & id & Hd & _ & _ & Hnew)
                                  | (d' & old & rest & Hd & _ & _ & Hnew)]];
      [contradiction| |]; injection Hd as <-;
      eexists; rewrite Hnew; cbn [find_one List.find];
      (split; [reflexivity|]); (split; [reflexivity|]);
      intros rendered Hid; unfold get_timetable, timetable_document;
      rewrite Hnew; cbn [find_one List.find t_id t_fields] in Hid |- *;
      now rewrite Hid.
Qed.

Lemma save_then_get_timetable_witness :
  (timetable empty_store = [] ->
   get_timetable (fun _ => Ret (VStr "oid")) empty_store =
   Ret (empty_store, (Msg "No timetable found", 404)))
  /\
  exists stored,
    find_one (fun _ => true)
      (timetable
         (set_timetable empty_store
            [{| t_id := ObjectId 0;
                t_fields := [("monday", VStr "maths")] |}] 1)) = Some stored /\
    t_fields stored = without_id [("monday", VStr "maths")] /\
    forall rendered,
      match t_id stored with
      | GivenId v => Ret v
      | ObjectId n => (fun _ => Ret (VStr "oid")) n
      end = Ret rendered ->
      get_timetable (fun _ => Ret (VStr "oid"))
        (set_timetable empty_store
           [{| t_id := ObjectId 0;
               t_fields := [("monday", VStr "maths")] |}] 1) =
      Ret (set_timetable empty_store
             [{| t_id := ObjectId 0;
                 t_fields := [("monday", VStr "maths")] |}] 1,
           (Json (VDict (("_id", rendered)
                           :: without_id [("monday", VStr "maths")])), 200)).
Proof.
  apply (save_then_get_timetable (fun _ => Ret (VStr "oid"))
           [("monday", VStr "maths")] empty_store _
           (Msg "Timetable saved successfully!", 201)).
  - reflexivity.
  - discriminate.
Defined.
